(** * server.py: the Otomono Jerseys development server

  A shallow embedding of [server.py] and the properties of its start-up
  sequence and of its request handler.

  The script is a thin wrapper around Python's [http.server] and
  [socketserver].  What the script itself does is translated function by
  function: the argument parsing of the [__main__] block, [check_files],
  [start_server], and the three methods of [CustomHTTPRequestHandler].
  What the interpreter and the operating system do (what the builtin [int]
  reads, the outcome of binding the socket, of opening the browser, of the
  accept loop, the files present in the working directory) is the [world]
  the program runs in; what the library does with a request, and what the
  operator [%] makes of a format, is a parameter of the handler.

  Two parts of the script have no counterpart here.  The console fix at the
  top of the file changes how lines are encoded on Windows, not which lines
  are printed.  The handler's [__init__] points the library at the working
  directory, which is where the model's files already live. *)

From Stdlib Require Import Ascii String ZArith.
From stdpp Require Import gmap strings list pretty.

#[local] Open Scope string_scope.
#[local] Open Scope list_scope.

(* [pretty] prints a number in decimal; it is computed on numerals only. *)
#[local] Arguments pretty : simpl never.

(** ** Python values used by the script *)

Module Py.

(** The exceptions the script can meet, with the part of the class
    hierarchy its [except] clauses distinguish.  [str] is what [f"{e}"]
    prints. *)
Inductive exn :=
| KeyboardInterrupt
| SystemExit (code : Z)
| ValueError (str : string)
| OSError (errno : option Z) (str : string)
| OtherException (str : string)        (* any other subclass of Exception *)
| OtherBaseException (str : string).   (* outside Exception, e.g. GeneratorExit *)

Definition isinstance_Exception (e : exn) : bool :=
  match e with
  | ValueError _ | OSError _ _ | OtherException _ => true
  | KeyboardInterrupt | SystemExit _ | OtherBaseException _ => false
  end.

Definition str (e : exn) : string :=
  match e with
  | KeyboardInterrupt => ""
  | SystemExit code => pretty code
  | ValueError s | OSError _ s | OtherException s | OtherBaseException s => s
  end.

(** *** Reading a decimal literal in ASCII

    The builtin [int] belongs to the interpreter, and the script is modelled
    for any [int] (it is a field of the world, below).  [ascii_int] is the
    [int] given to the sample machines, which are started with ASCII
    command lines: on ASCII text it answers as CPython 3.11 does.
    Surrounding ASCII white space is dropped, one sign is allowed, the
    digits may be grouped by single underscores, and a literal of more than
    4300 digits is refused.  The answer is the integer, or the message of
    the [ValueError].  On text outside ASCII [ascii_int] refuses, where
    CPython also reads the decimal digits and spaces of other scripts. *)

Definition isspace (c : ascii) : bool :=
  let n := N_of_ascii c in
  ((9 <=? n) && (n <=? 13) || (n =? 32))%N.

Definition isdigit (c : ascii) : bool :=
  let n := N_of_ascii c in
  ((48 <=? n) && (n <=? 57))%N.

Definition digit_value (c : ascii) : Z := Z.of_N (N_of_ascii c) - 48.

Fixpoint lstrip (s : string) : string :=
  match s with
  | String c s' => if isspace c then lstrip s' else s
  | EmptyString => EmptyString
  end.

Fixpoint reverse (acc s : string) : string :=
  match s with
  | String c s' => reverse (String c acc) s'
  | EmptyString => acc
  end.

Definition strip (s : string) : string :=
  reverse "" (lstrip (reverse "" (lstrip s))).

(** [after_digit] tells whether the previous character was a digit: an
    underscore is accepted only there, and the literal must not end on
    one. *)
Fixpoint digits (after_digit : bool) (acc : Z) (s : string) : option Z :=
  match s with
  | EmptyString => if after_digit then Some acc else None
  | String c s' =>
      if isdigit c then digits true (10 * acc + digit_value c) s'
      else if Ascii.eqb c "_" && after_digit then digits false acc s'
      else None
  end.

Fixpoint digit_count (s : string) : nat :=
  match s with
  | String c s' => (if isdigit c then 1 else 0) + digit_count s'
  | EmptyString => 0
  end.

Definition max_str_digits : nat := 4300.

Definition ascii_int (s : string) : string + Z :=
  let t := strip s in
  let parsed :=
    match t with
    | String "-" t' => Z.opp <$> digits false 0 t'
    | String "+" t' => digits false 0 t'
    | _ => digits false 0 t
    end in
  match parsed with
  | Some n =>
      if (max_str_digits <? digit_count t)%nat then
        inl ("Exceeds the limit (4300 digits) for integer string conversion: value has "
             +:+ pretty (digit_count t)
             +:+ " digits; use sys.set_int_max_str_digits() to increase the limit")
      else inr n
  | None => inl ("invalid literal for int() with base 10: '" +:+ s +:+ "'")
  end.

(** *** Filling in [%s]

    The operator [%] belongs to the interpreter as well, and the handler is
    modelled for any [%] (a field of the library, below).  [percent_s] is
    the one given to the sample library: it fills the [%s] directives of a
    format with strings, in order, and reads [%%] as a percent sign, which
    is what [format % args] gives when the format holds no other directive
    and has as many [%s] as there are arguments. *)
Fixpoint percent_s (format : string) (args : list string) : string :=
  match format with
  | String "%" (String "s" rest) =>
      match args with
      | a :: args' => a +:+ percent_s rest args'
      | [] => percent_s rest []
      end
  | String "%" (String "%" rest) => String "%" (percent_s rest args)
  | String c rest => String c (percent_s rest args)
  | EmptyString => EmptyString
  end.

(** ["=" * n] *)
Definition repeat_str (s : string) (n : nat) : string :=
  String.concat "" (replicate n s).

End Py.

(** ** The world the process runs in *)

Module OS.

Inductive platform := linux | darwin | win32.

(** The number [errno.EADDRINUSE] has on each platform (on Windows the
    socket layer reports [WSAEADDRINUSE]). *)
Definition EADDRINUSE (p : platform) : Z :=
  match p with
  | linux => 98
  | darwin => 48
  | win32 => 10048
  end.

Inductive node := File | Directory.

Record world := World {
  (** [sys.platform]; it decides the error numbers the socket layer
      reports *)
  sys_platform : platform;
  sys_argv : list string;
  (** the builtin [int] on a string: the integer, or the message of the
      [ValueError] it raises *)
  builtin_int : string → string + Z;
  (** [os.getcwd()] *)
  os_getcwd : string;
  (** what the working directory holds, by relative path *)
  fs : gmap string node;
  (** [socketserver.TCPServer((host, port), handler)]: [None] when the
      socket is bound and listening, the exception raised otherwise *)
  bind_outcome : string → Z → option Py.exn;
  (** [webbrowser.open(url)]: the exception it raises, if any *)
  browser_outcome : string → option Py.exn;
  (** [httpd.serve_forever()]: the exception that ends the accept loop,
      or [None] when the loop is never left *)
  serve_outcome : option Py.exn;
}.

(** What the process does that can be seen from outside, in order. *)
Inductive event :=
| Print (line : string)
| TCPServer (host : string) (port : Z)
| ServerClose
| WebbrowserOpen (url : string)
| ServeForever.

#[global] Instance event_eq_dec : EqDecision event.
Proof. solve_decision. Defined.

(** How the process ends. *)
Inductive outcome :=
| Exit (status : Z)
| Traceback (e : Py.exn)
| RunsForever.

End OS.

(** ** Statements: global state, output, exceptions *)

Module Stmt.
Import OS.

(** The module-level variable the script assigns, and the events so far. *)
Record state := State { PORT : Z; events : list event }.

Inductive result (A : Type) :=
| Ret (a : A)
| Raise (e : Py.exn)
| Blocked.
#[global] Arguments Ret {A} a.
#[global] Arguments Raise {A} e.
#[global] Arguments Blocked {A}.

Definition M (A : Type) : Type := state → state * result A.

#[global] Instance M_ret : MRet M := λ A a s, (s, Ret a).
#[global] Instance M_bind : MBind M := λ A B k m s,
  match m s with
  | (s', Ret a) => k a s'
  | (s', Raise e) => (s', Raise e)
  | (s', Blocked) => (s', Blocked)
  end.

Definition raise {A} (e : Py.exn) : M A := λ s, (s, Raise e).
Definition block {A} : M A := λ s, (s, Blocked).

(** [try: body / except ...: handler]; [handler e = None] when no clause
    matches [e]. *)
Definition try_except {A} (body : M A) (handler : Py.exn → option (M A)) : M A :=
  λ s,
    match body s with
    | (s', Raise e) =>
        match handler e with
        | Some h => h s'
        | None => (s', Raise e)
        end
    | r => r
    end.

Definition add (ev : event) (s : state) : state :=
  State (PORT s) (events s ++ [ev]).

Definition emit (ev : event) : M unit := λ s, (add ev s, Ret tt).

Definition print (line : string) : M unit := emit (Print line).

Definition read_PORT : M Z := λ s, (s, Ret (PORT s)).
Definition assign_PORT (n : Z) : M unit := λ s, (State n (events s), Ret tt).

Definition sys_exit {A} (code : Z) : M A := raise (Py.SystemExit code).

(** [for x in xs: body x] *)
Fixpoint for_each {A} (xs : list A) (body : A → M unit) : M unit :=
  match xs with
  | [] => mret tt
  | x :: xs' => body x ;; for_each xs' body
  end.

End Stmt.

(** ** The script *)

Module Script.
Import OS Stmt.

Definition nl : string := String "010" "".

(** Configuration *)
Definition PORT_default : Z := 8000.
Definition HOST : string := "localhost".

Section script.
Context (w : world).

(** [os.path.exists(path)], for a path relative to the working directory. *)
Definition os_path_exists (path : string) : bool :=
  bool_decide (is_Some (fs w !! path)).

(** [with socketserver.TCPServer((host, port), CustomHTTPRequestHandler) as httpd: body].
    The constructor creates the socket, binds it and listens; leaving the
    block, normally or by an exception, closes the server. *)
Definition with_TCPServer {A} (host : string) (port : Z) (body : M A) : M A :=
  emit (TCPServer host port) ;;
  match bind_outcome w host port with
  | Some e => raise e
  | None =>
      λ s, match body s with
           | (s', Blocked) => (s', Blocked)
           | (s', r) => (add ServerClose s', r)
           end
  end.

Definition webbrowser_open (url : string) : M unit :=
  emit (WebbrowserOpen url) ;;
  match browser_outcome w url with
  | Some e => raise e
  | None => mret tt
  end.

Definition serve_forever : M unit :=
  emit ServeForever ;;
  match serve_outcome w with
  | Some e => raise e
  | None => block
  end.

(** [start_server()] in three parts: the body of its [with] block, its
    [except] clauses, and the [try] statement that joins them.  The global
    [PORT] is read once, as [port]: nothing assigns it while the function
    runs. *)
Definition start_server_body (port : Z) : M unit :=
  let at_port := "http://" +:+ HOST +:+ ":" +:+ pretty port in
  print (Py.repeat_str "=" 60) ;;
  print "🚀 Otomono Jerseys Development Server" ;;
  print (Py.repeat_str "=" 60) ;;
  print ("📍 Server running at: " +:+ at_port) ;;
  print ("📁 Serving files from: " +:+ os_getcwd w) ;;
  print (Py.repeat_str "=" 60) ;;
  print "🔗 Quick Links:" ;;
  print ("   • Main Site: " +:+ at_port +:+ "/index.html") ;;
  print ("   • Admin Panel: " +:+ at_port +:+ "/admin-panel.html") ;;
  print ("   • 🚨 FIX PERMISSIONS: " +:+ at_port +:+ "/firebase-rules-implementation.html") ;;
  print ("   • Firebase Setup Guide: " +:+ at_port +:+ "/firebase-setup-guide.html") ;;
  print ("   • Firebase Permissions Guide: " +:+ at_port +:+ "/firebase-permissions-guide.html") ;;
  print ("   • Order Test: " +:+ at_port +:+ "/quick-order-test.html") ;;
  print ("   • Full Test: " +:+ at_port +:+ "/test-order-saving.html") ;;
  print ("   • OrderManager Test: " +:+ at_port +:+ "/test-order-manager.html") ;;
  print ("   • Order Diagnostic: " +:+ at_port +:+ "/order-diagnostic.html") ;;
  print ("   • Firebase Test: " +:+ at_port +:+ "/firebase-test.html") ;;
  print (Py.repeat_str "=" 60) ;;
  print "💡 Press Ctrl+C to stop the server" ;;
  print (Py.repeat_str "=" 60) ;;
  (* Try to open browser automatically; the bare [except:] catches every
     exception *)
  try_except
    (webbrowser_open (at_port +:+ "/quick-order-test.html") ;;
     print "🌐 Browser opened automatically")
    (λ _, Some (print "⚠️  Could not open browser automatically")) ;;
  print (nl +:+ "🔄 Server started successfully!") ;;
  print "📝 Check the console for any errors or requests" ;;
  (* Start serving *)
  serve_forever.

Definition start_server_except (port : Z) (e : Py.exn) : option (M unit) :=
  match e with
  | Py.KeyboardInterrupt =>
      Some (print (nl +:+ nl +:+ "🛑 Server stopped by user") ;;
            print "👋 Goodbye!" ;;
            sys_exit 0)
  | Py.OSError errno _ =>
      Some ((if bool_decide (errno = Some 48%Z) (* Address already in use *)
             then
               print ("❌ Error: Port " +:+ pretty port +:+ " is already in use") ;;
               print ("💡 Try a different port or stop the process using port " +:+ pretty port) ;;
               print "🔧 Alternative: python server.py --port 8001"
             else
               print ("❌ Error starting server: " +:+ Py.str e)) ;;
            sys_exit 1)
  | _ =>
      if Py.isinstance_Exception e
      then Some (print ("❌ Unexpected error: " +:+ Py.str e) ;; sys_exit 1)
      else None
  end.

Definition start_server : M unit :=
  port ← read_PORT;
  try_except
    (with_TCPServer HOST port (start_server_body port))
    (start_server_except port).

(** The two loops of [check_files]:
    [for file in files: if not os.path.exists(file): missing.append(file)] *)
Definition collect_missing (files : list string) : list string :=
  foldl (λ missing file,
           if negb (os_path_exists file) then missing ++ [file] else missing)
        [] files.

(** The body of [check_files()], for any two lists in the place of its local
    constants [required_files] and [optional_files]. *)
Definition check_files_of (required_files optional_files : list string) : M bool :=
  let missing_required := collect_missing required_files in
  let missing_optional := collect_missing optional_files in
  match missing_required with
  | _ :: _ =>
      print "❌ Error: Required files are missing:" ;;
      for_each missing_required (λ file, print ("   • " +:+ file)) ;;
      print (nl +:+ "💡 Make sure you're running this from the project root directory") ;;
      mret false
  | [] =>
      match missing_optional with
      | _ :: _ =>
          print "⚠️  Note: Some optional files are missing (server will still start):" ;;
          for_each missing_optional (λ file, print ("   • " +:+ file)) ;;
          print ""
      | [] => mret tt
      end ;;
      mret true
  end.

Definition required_files : list string := ["index.html"].

Definition optional_files : list string :=
  ["js/order-manager.js"; "quick-order-test.html"; "test-order-saving.html"].

Definition check_files : M bool := check_files_of required_files optional_files.

(** [sys.argv[i]], read only where the script has checked the length. *)
Definition argv_at (i : nat) : string := default "" (sys_argv w !! i).

(** [int(s)] *)
Definition int (s : string) : M Z :=
  match builtin_int w s with
  | inl message => raise (Py.ValueError message)
  | inr n => mret n
  end.

(** The argument parsing of the [__main__] block. *)
Definition parse_command_line : M unit :=
  if bool_decide (1 < length (sys_argv w)) then
    if bool_decide (argv_at 1 = "--port") && bool_decide (2 < length (sys_argv w)) then
      try_except
        (n ← int (argv_at 2); assign_PORT n)
        (λ e, match e with
              | Py.ValueError _ =>
                  Some (print "❌ Error: Port must be a number" ;; sys_exit 1)
              | _ => None
              end)
    else if bool_decide (argv_at 1 ∈ ["-h"; "--help"]) then
      print "Usage: python server.py [--port PORT]" ;;
      print "  --port PORT    Use a specific port (default: 8000)" ;;
      print "  -h, --help     Show this help message" ;;
      sys_exit 0
    else mret tt
  else mret tt.

(** The [__main__] block. *)
Definition main : M unit :=
  parse_command_line ;;
  (* Check if we're in the right directory *)
  ok ← check_files;
  (if negb ok then
     print "❌ Please run this script from the project root directory" ;;
     sys_exit 1
   else mret tt) ;;
  (* Start the server *)
  start_server.

(** The process: the module is loaded with [PORT = 8000], the [__main__]
    block runs, and the interpreter turns what is left into an exit
    status. *)
Definition run : list event * outcome :=
  let '(s, r) := main (State PORT_default []) in
  (events s,
   match r with
   | Ret _ => Exit 0
   | Raise (Py.SystemExit code) => Exit code
   | Raise e => Traceback e
   | Blocked => RunsForever
   end).

End script.

End Script.

(** ** The request handler *)

Module Handler.
Import OS.

(** *** The handler object

    What [http.server.BaseHTTPRequestHandler] keeps for one request, as far
    as the script's methods touch it.  The header buffer holds the lines
    queued by [send_response] and [send_header]; [wfile] holds what has been
    written to the client, a header block being the lines flushed by one
    [end_headers] (the blank line that closes a block is left implicit). *)

Inductive header_line :=
| StatusLine (protocol_version : string) (code : Z) (message : string)
| Header (keyword value : string).

#[global] Instance header_line_eq_dec : EqDecision header_line.
Proof. solve_decision. Defined.

Inductive sent :=
| HeaderBlock (lines : list header_line)
| Body (data : string).

Record handler := MkHandler {
  requestline : string;
  command : string;
  path : string;
  request_version : string;
  headers_buffer : list header_line;
  wfile : list sent;
  stdout : list string;
}.

Definition with_headers_buffer (b : list header_line) (h : handler) : handler :=
  MkHandler (requestline h) (command h) (path h) (request_version h) b (wfile h) (stdout h).

Definition with_wfile (f : list sent) (h : handler) : handler :=
  MkHandler (requestline h) (command h) (path h) (request_version h) (headers_buffer h) f (stdout h).

Definition with_stdout (o : list string) (h : handler) : handler :=
  MkHandler (requestline h) (command h) (path h) (request_version h) (headers_buffer h) (wfile h) o.

(** The handler as [handle_one_request] finds it when a request arrives on
    a new connection. *)
Definition request (requestline command path request_version : string) : handler :=
  MkHandler requestline command path request_version [] [] [].

(** The calls a method inherited from the library makes on [self]. *)
Inductive call :=
| call_send_response (code : Z)
| call_send_response_only (code : Z)
| call_send_header (keyword value : string)
| call_end_headers
| call_wfile_write (data : string)
| call_log_message (format : string) (args : list string).

(** The library behind the handler class: the values its helper methods
    return, and what the code the script does not override does with a
    request.  [parse_request] gives the calls made while the request is
    read (an error response, or [100 Continue]) and whether the request is
    handed to its [do_] method; [inherited_method] gives the calls of every
    such method but [do_OPTIONS] ([do_GET], [do_HEAD], and the [501] error
    for a command without a method), which may depend on the files
    served. *)
Record library := Library {
  protocol_version : string;
  version_string : string;
  date_time_string : string;
  log_date_time_string : string;
  responses : Z → string;
  (** [format % args], for the formats and arguments of the calls of
      [log_message] that are made *)
  percent : string → list string → string;
  parse_request : handler → list call * bool;
  inherited_method : gmap string node → handler → list call;
}.

#[local] Notation "h ▷ f" := (f h) (at level 45, left associativity, only parsing).

Definition quote : string := String "034" "".

Section handler.
Context (lib : library).

(** *** Methods of [BaseHTTPRequestHandler] (the Connection header's effect
    on [close_connection] is left out) *)

Definition send_response_only (code : Z) (h : handler) : handler :=
  if bool_decide (request_version h ≠ "HTTP/0.9") then
    h ▷ with_headers_buffer
          (headers_buffer h ++ [StatusLine (protocol_version lib) code (responses lib code)])
  else h.

Definition send_header (keyword value : string) (h : handler) : handler :=
  if bool_decide (request_version h ≠ "HTTP/0.9") then
    h ▷ with_headers_buffer (headers_buffer h ++ [Header keyword value])
  else h.

Definition flush_headers (h : handler) : handler :=
  h ▷ with_wfile (wfile h ++ [HeaderBlock (headers_buffer h)])
    ▷ with_headers_buffer [].

Definition BaseHTTPRequestHandler_end_headers (h : handler) : handler :=
  if bool_decide (request_version h ≠ "HTTP/0.9") then flush_headers h else h.

(** *** Methods of [CustomHTTPRequestHandler] *)

Definition log_message (format : string) (args : list string) (h : handler) : handler :=
  (* Custom log format *)
  h ▷ with_stdout
        (stdout h ++ ["[" +:+ log_date_time_string lib +:+ "] " +:+ percent lib format args]).

Definition end_headers (h : handler) : handler :=
  (* Add CORS headers for local development *)
  h ▷ send_header "Access-Control-Allow-Origin" "*"
    ▷ send_header "Access-Control-Allow-Methods" "GET, POST, OPTIONS"
    ▷ send_header "Access-Control-Allow-Headers" "Content-Type"
    ▷ BaseHTTPRequestHandler_end_headers.

(** [log_request] and [send_response] are the library's; they reach the
    overridden [log_message]. *)
Definition log_request (code : Z) (h : handler) : handler :=
  h ▷ log_message (quote +:+ "%s" +:+ quote +:+ " %s %s") [requestline h; pretty code; "-"].

Definition send_response (code : Z) (h : handler) : handler :=
  h ▷ log_request code
    ▷ send_response_only code
    ▷ send_header "Server" (version_string lib)
    ▷ send_header "Date" (date_time_string lib).

Definition do_OPTIONS (h : handler) : handler :=
  (* Handle preflight requests *)
  h ▷ send_response 200
    ▷ end_headers.

(** *** Dispatch

    Every call on [self] resolves to the subclass first: the library's
    [self.end_headers()] is the [end_headers] above. *)
Definition run_call (h : handler) (c : call) : handler :=
  match c with
  | call_send_response code => send_response code h
  | call_send_response_only code => send_response_only code h
  | call_send_header keyword value => send_header keyword value h
  | call_end_headers => end_headers h
  | call_wfile_write data => h ▷ with_wfile (wfile h ++ [Body data])
  | call_log_message format args => log_message format args h
  end.

Definition run_calls (calls : list call) (h : handler) : handler :=
  foldl run_call h calls.

(** [method = getattr(self, 'do_' + self.command); method()] *)
Definition method (files : gmap string node) (h : handler) : handler :=
  if bool_decide (command h = "OPTIONS") then do_OPTIONS h
  else run_calls (inherited_method lib files h) h.

Definition handle_one_request (files : gmap string node) (h : handler) : handler :=
  let '(calls, parsed) := parse_request lib h in
  let h := run_calls calls h in
  if parsed then method files h else h.

End handler.

(** The three headers of [end_headers]. *)
Definition cors_headers : list header_line :=
  [Header "Access-Control-Allow-Origin" "*";
   Header "Access-Control-Allow-Methods" "GET, POST, OPTIONS";
   Header "Access-Control-Allow-Headers" "Content-Type"].

(** A header block carries the CORS headers; a piece of body has no
    headers. *)
Definition carries_cors (s : sent) : Prop :=
  match s with
  | HeaderBlock lines => cors_headers ⊆ lines
  | Body _ => True
  end.

End Handler.

(** ** Notions used to state the properties *)

Module Spec.
Import OS Stmt Script.

(** The same world started with another command line. *)
Definition with_argv (argv : list string) (w : world) : world :=
  World (sys_platform w) argv (builtin_int w) (os_getcwd w) (fs w)
        (bind_outcome w) (browser_outcome w) (serve_outcome w).

(** The files of a list that the working directory does not hold. *)
Definition absent (w : world) (files : list string) : list string :=
  filter (λ file, fs w !! file = None) files.

(** What [check_files] prints about optional files: nothing when none is
    absent, a note naming the absent ones otherwise. *)
Definition optional_note (w : world) (optional : list string) : list event :=
  match absent w optional with
  | [] => []
  | missing =>
      Print "⚠️  Note: Some optional files are missing (server will still start):"
      :: map (λ file, Print ("   • " +:+ file)) missing ++ [Print ""]
  end.

(** What [check_files] prints when required files are absent. *)
Definition required_error (missing : list string) : list event :=
  Print "❌ Error: Required files are missing:"
  :: map (λ file, Print ("   • " +:+ file)) missing
  ++ [Print (nl +:+ "💡 Make sure you're running this from the project root directory")].

(** An event that creates a socket. *)
Definition opens_socket (ev : event) : Prop :=
  match ev with
  | TCPServer _ _ => True
  | _ => False
  end.

(** How the accept loop ends in a world. *)
Definition serving (w : world) : result unit :=
  match serve_outcome w with
  | Some e => Raise e
  | None => Blocked
  end.

(** *** Worlds used as concrete inputs *)

Definition site : gmap string node :=
  {[ "index.html" := File; "js/order-manager.js" := File;
     "quick-order-test.html" := File; "test-order-saving.html" := File ]}.

(** A Linux machine, the project directory, every bind succeeds, the browser
    opens, and the loop runs until the user presses Ctrl+C. *)
Definition dev_machine (argv : list string) (files : gmap string node) : world :=
  World linux argv Py.ascii_int "/home/dev/mv-jerseys" files
        (λ _ _, None) (λ _, None) (Some Py.KeyboardInterrupt).

(** The same machine with another process listening on every port asked
    for: [bind] fails with the platform's [EADDRINUSE]. *)
Definition port_taken (p : platform) (argv : list string) : world :=
  World p argv Py.ascii_int "/home/dev/mv-jerseys" site
        (λ _ _, Some (Py.OSError (Some (EADDRINUSE p))
                        ("[Errno " +:+ pretty (EADDRINUSE p) +:+ "] Address already in use")))
        (λ _, None) None.

(** *** Responses *)

(** Since [h], the handler [h'] has written only header blocks that carry
    the CORS headers, and pieces of body. *)
Definition answers_with_cors (h h' : Handler.handler) : Prop :=
  ∃ new, Handler.wfile h' = Handler.wfile h ++ new
         ∧ Forall Handler.carries_cors new.

(** A library that answers with the file's bytes or a 404 page, used as a
    concrete input. *)
Definition sample_library : Handler.library :=
  Handler.Library
    "HTTP/1.0" "SimpleHTTP/0.6 Python/3.11.2"
    "Tue, 03 Nov 2026 12:00:00 GMT" "03/Nov/2026 12:00:00"
    (λ code, if bool_decide (code = 200%Z) then "OK"
             else if bool_decide (code = 404%Z) then "File not found" else "")
    Py.percent_s
    (λ _, ([], true))
    (λ files h,
       let relative :=
         match Handler.path h with
         | String "/" rest => rest
         | other => other
         end in
       match files !! relative with
       | Some File =>
           [Handler.call_send_response 200;
            Handler.call_send_header "Content-type" "text/html";
            Handler.call_end_headers;
            Handler.call_wfile_write "<!DOCTYPE html>"]
       | _ =>
           [Handler.call_send_response 404;
            Handler.call_send_header "Connection" "close";
            Handler.call_end_headers;
            Handler.call_wfile_write "File not found"]
       end).

(** *** The trace of a start-up

    The events of [start_server], named piece by piece so that whole runs
    can be written down. *)

Definition base_url (port : Z) : string :=
  "http://" +:+ HOST +:+ ":" +:+ pretty port.

Definition banner (w : world) (port : Z) : list event :=
  [Print (Py.repeat_str "=" 60);
   Print "🚀 Otomono Jerseys Development Server";
   Print (Py.repeat_str "=" 60);
   Print ("📍 Server running at: " +:+ base_url port);
   Print ("📁 Serving files from: " +:+ os_getcwd w);
   Print (Py.repeat_str "=" 60);
   Print "🔗 Quick Links:";
   Print ("   • Main Site: " +:+ base_url port +:+ "/index.html");
   Print ("   • Admin Panel: " +:+ base_url port +:+ "/admin-panel.html");
   Print ("   • 🚨 FIX PERMISSIONS: " +:+ base_url port +:+ "/firebase-rules-implementation.html");
   Print ("   • Firebase Setup Guide: " +:+ base_url port +:+ "/firebase-setup-guide.html");
   Print ("   • Firebase Permissions Guide: " +:+ base_url port +:+ "/firebase-permissions-guide.html");
   Print ("   • Order Test: " +:+ base_url port +:+ "/quick-order-test.html");
   Print ("   • Full Test: " +:+ base_url port +:+ "/test-order-saving.html");
   Print ("   • OrderManager Test: " +:+ base_url port +:+ "/test-order-manager.html");
   Print ("   • Order Diagnostic: " +:+ base_url port +:+ "/order-diagnostic.html");
   Print ("   • Firebase Test: " +:+ base_url port +:+ "/firebase-test.html");
   Print (Py.repeat_str "=" 60);
   Print "💡 Press Ctrl+C to stop the server";
   Print (Py.repeat_str "=" 60)].

(** The page the browser is sent to. *)
Definition browser_url (port : Z) : string :=
  base_url port +:+ "/quick-order-test.html".

Definition browser_events (w : world) (port : Z) : list event :=
  [WebbrowserOpen (browser_url port);
   Print (match browser_outcome w (browser_url port) with
          | None => "🌐 Browser opened automatically"
          | Some _ => "⚠️  Could not open browser automatically"
          end)].

Definition started : list event :=
  [Print (nl +:+ "🔄 Server started successfully!");
   Print "📝 Check the console for any errors or requests"].

(** From the bound socket to the accept loop. *)
Definition startup_events (w : world) (port : Z) : list event :=
  banner w port ++ browser_events w port ++ started ++ [ServeForever].

(** What the [except] clauses of [start_server] print for an exception, and
    how the function ends on it. *)
Definition error_lines (port : Z) (e : Py.exn) : list event :=
  match e with
  | Py.KeyboardInterrupt =>
      [Print (nl +:+ nl +:+ "🛑 Server stopped by user"); Print "👋 Goodbye!"]
  | Py.OSError errno _ =>
      if bool_decide (errno = Some 48%Z) then
        [Print ("❌ Error: Port " +:+ pretty port +:+ " is already in use");
         Print ("💡 Try a different port or stop the process using port " +:+ pretty port);
         Print "🔧 Alternative: python server.py --port 8001"]
      else [Print ("❌ Error starting server: " +:+ Py.str e)]
  | _ =>
      if Py.isinstance_Exception e
      then [Print ("❌ Unexpected error: " +:+ Py.str e)]
      else []
  end.

Definition ending (e : Py.exn) : result unit :=
  match e with
  | Py.KeyboardInterrupt => Raise (Py.SystemExit 0)
  | _ => if Py.isinstance_Exception e then Raise (Py.SystemExit 1) else Raise e
  end.

(** The events of [start_server] after the socket is asked for, and its
    result. *)
Definition server_trace (w : world) (port : Z) : list event * result unit :=
  match bind_outcome w HOST port with
  | Some e => (error_lines port e, ending e)
  | None =>
      match serve_outcome w with
      | None => (startup_events w port, Blocked)
      | Some e => (startup_events w port ++ ServerClose :: error_lines port e, ending e)
      end
  end.

(** The exit status the interpreter makes of a result. *)
Definition outcome_of (r : result unit) : outcome :=
  match r with
  | Ret _ => Exit 0
  | Raise (Py.SystemExit code) => Exit code
  | Raise e => Traceback e
  | Blocked => RunsForever
  end.

(** The sockets a run has asked for, in order. *)
Definition sockets (evs : list event) : list (string * Z) :=
  omap (λ ev, match ev with
              | TCPServer host port => Some (host, port)
              | _ => None
              end) evs.

(** The world raises [e] when the socket is bound or in the accept loop. *)
Definition raised (w : world) (e : Py.exn) : Prop :=
  (∃ port, bind_outcome w HOST port = Some e) ∨ serve_outcome w = Some e.

(** The usage text of [-h]. *)
Definition usage : list event :=
  [Print "Usage: python server.py [--port PORT]";
   Print "  --port PORT    Use a specific port (default: 8000)";
   Print "  -h, --help     Show this help message"].

(** *** Notions for the handler *)

(** A header block ends with the three CORS headers, in the order
    [end_headers] sends them. *)
Definition ends_with_cors (s : Handler.sent) : Prop :=
  match s with
  | Handler.HeaderBlock lines => Handler.cors_headers `suffix_of` lines
  | Handler.Body _ => True
  end.

(** A log line carries the time stamp of the custom format. *)
Definition stamped (lib : Handler.library) (line : string) : Prop :=
  ∃ message, line = "[" +:+ Handler.log_date_time_string lib +:+ "] " +:+ message.


(** A machine on which the browser cannot be started because the user
    presses Ctrl+C at that moment, and the loop then runs on. *)
Definition interrupted_browser (argv : list string) (files : gmap string node) : world :=
  World linux argv Py.ascii_int "/home/dev/mv-jerseys" files
        (λ _ _, None) (λ _, Some Py.KeyboardInterrupt) None.

(** A machine on which the accept loop ends with the given exception. *)
Definition failing_loop (e : Py.exn) : world :=
  World linux ["server.py"] Py.ascii_int "/home/dev/mv-jerseys" site
        (λ _ _, None) (λ _, None) (Some e).

(** Since [h], a list kept by the handler ([wfile], [stdout]) has only
    grown in [h'], by items that satisfy [P]. *)
Definition grows {X : Type} (field : Handler.handler → list X) (P : X → Prop)
    (h h' : Handler.handler) : Prop :=
  ∃ new, field h' = field h ++ new ∧ Forall P new.

(** The calls made on [self] while a request is handled: those of
    [parse_request], then, when the request is handed to its method, the
    calls of the method; [do_OPTIONS] calls [send_response(200)] and
    [end_headers()]. *)
Definition calls_made (lib : Handler.library) (files : gmap string node)
    (h : Handler.handler) : list Handler.call :=
  let '(calls, parsed) := Handler.parse_request lib h in
  if parsed then
    calls ++
    (if bool_decide (Handler.command (Handler.run_calls lib calls h) = "OPTIONS")
     then [Handler.call_send_response 200; Handler.call_end_headers]
     else Handler.inherited_method lib files (Handler.run_calls lib calls h))
  else calls.

(** How many times the headers of a response are ended. *)
Fixpoint ended (calls : list Handler.call) : nat :=
  match calls with
  | [] => 0
  | Handler.call_end_headers :: calls' => S (ended calls')
  | _ :: calls' => ended calls'
  end.

(** The header sections among what was written, in order. *)
Definition header_sections (items : list Handler.sent) : list (list Handler.header_line) :=
  omap (λ s, match s with
             | Handler.HeaderBlock lines => Some lines
             | Handler.Body _ => None
             end) items.

(** A piece of body: no status line, no header. *)
Definition is_body (s : Handler.sent) : Prop := ∃ data, s = Handler.Body data.

End Spec.

(** ** Properties *)

Import OS Stmt Script Spec.

(** *** Stepping through statements *)

Lemma PORT_add (ev : event) (s : state) : PORT (add ev s) = PORT s.
Proof. reflexivity. Qed.

Lemma events_add (ev : event) (s : state) : events (add ev s) = events s ++ [ev].
Proof. reflexivity. Qed.

Lemma add_eq (ev : event) (s : state) : add ev s = State (PORT s) (events s ++ [ev]).
Proof. reflexivity. Qed.

Lemma prefix_add (evs : list event) (ev : event) (s : state) :
  evs `prefix_of` events s → evs `prefix_of` events (add ev s).
Proof. intros H. rewrite events_add. by apply prefix_app_r. Qed.

(** Spell out the states that [add] has built, from the outside in, so
    that no state is copied. *)
Ltac state_simpl :=
  repeat first [rewrite PORT_add | rewrite events_add | rewrite add_eq];
  cbn [PORT events].

Section steps.
Context (w : world).

Lemma print_step {A} (line : string) (k : M A) (s : state) :
  (print line ;; k) s = k (add (Print line) s).
Proof. reflexivity. Qed.

Lemma print_last (line : string) (s : state) :
  print line s = (add (Print line) s, Ret tt).
Proof. reflexivity. Qed.

Lemma bind_step {A B} (m : M A) (k : A → M B) (s s' : state) (a : A) :
  m s = (s', Ret a) → (m ≫= k) s = k a s'.
Proof. intros E. unfold mbind, M_bind. by rewrite E. Qed.

Lemma bind_raise {A B} (m : M A) (k : A → M B) (s s' : state) (e : Py.exn) :
  m s = (s', Raise e) → (m ≫= k) s = (s', Raise e).
Proof. intros E. unfold mbind, M_bind. by rewrite E. Qed.

Lemma for_each_print (line : string → string) (xs : list string) (s : state) :
  for_each xs (λ x, print (line x)) s
  = (State (PORT s) (events s ++ map (λ x, Print (line x)) xs), Ret tt).
Proof.
  revert s. induction xs as [|x xs IH]; intros [port evs]; simpl.
  - by rewrite app_nil_r.
  - rewrite print_step, IH. simpl. by rewrite <- app_assoc.
Qed.

Lemma collect_missing_absent (files : list string) :
  collect_missing w files = absent w files.
Proof.
  unfold collect_missing, absent.
  enough (G : ∀ acc,
    foldl (λ missing file,
             if negb (os_path_exists w file) then missing ++ [file] else missing)
          acc files
    = acc ++ filter (λ file, fs w !! file = None) files) by apply (G []).
  induction files as [|f files IH]; intros acc; simpl.
  - by rewrite app_nil_r.
  - rewrite IH, filter_cons. unfold os_path_exists.
    case_bool_decide as E; case_decide as E'; simpl.
    + destruct E as [? E]. congruence.
    + done.
    + by rewrite <- app_assoc.
    + destruct E. by apply not_eq_None_Some.
Qed.

Lemma absent_nil (files : list string) :
  absent w files = [] ↔ ∀ file, file ∈ files → fs w !! file ≠ None.
Proof.
  split.
  - intros E file Hin Hnone.
    assert (file ∈ absent w files) as Hm by (apply list_elem_of_filter; done).
    rewrite E in Hm. by apply not_elem_of_nil in Hm.
  - intros H. destruct (absent w files) as [|file rest] eqn:E; [done|].
    assert (file ∈ absent w files) as Hm by (rewrite E; left).
    apply list_elem_of_filter in Hm as [Hnone Hin]. by destruct (H file Hin).
Qed.

Lemma elem_of_absent (files : list string) (file : string) :
  file ∈ absent w files ↔ file ∈ files ∧ fs w !! file = None.
Proof. unfold absent. rewrite list_elem_of_filter. tauto. Qed.

(** [check_files] in one equation. *)
Lemma check_files_of_run (required optional : list string) (s : state) :
  check_files_of w required optional s =
    match absent w required with
    | [] => (State (PORT s) (events s ++ optional_note w optional), Ret true)
    | missing => (State (PORT s) (events s ++ required_error missing), Ret false)
    end.
Proof.
  unfold check_files_of, optional_note, required_error.
  rewrite !collect_missing_absent.
  destruct (absent w required) as [|r rs].
  - destruct (absent w optional) as [|o os].
    + destruct s. simpl. by rewrite app_nil_r.
    + rewrite (bind_step _ _ s
        (State (PORT s) (events s ++
           Print "⚠️  Note: Some optional files are missing (server will still start):"
           :: map (λ file, Print ("   • " +:+ file)) (o :: os) ++ [Print ""])) tt); [done|].
      rewrite print_step.
      rewrite (bind_step _ _ _ _ tt (for_each_print _ _ _)).
      rewrite print_last. state_simpl.
      by rewrite <- !app_assoc.
  - rewrite print_step.
    rewrite (bind_step _ _ _ _ tt (for_each_print _ _ _)).
    rewrite print_step. state_simpl.
    by rewrite <- !app_assoc.
Qed.

End steps.

(** *** The command line *)

Section command_line.
Context (w : world).

Lemma argv_at_lookup (i : nat) (a : string) :
  sys_argv w !! i = Some a → argv_at w i = a.
Proof. unfold argv_at. by intros ->. Qed.

Lemma parse_without_argument (s : state) :
  (length (sys_argv w) ≤ 1)%nat → parse_command_line w s = (s, Ret tt).
Proof.
  intros Hlen. unfold parse_command_line.
  rewrite bool_decide_eq_false_2 by lia. done.
Qed.

Lemma parse_port (prog v : string) (rest : list string) (s : state) :
  sys_argv w = prog :: "--port" :: v :: rest →
  parse_command_line w s =
    match builtin_int w v with
    | inr n => (State n (events s), Ret tt)
    | inl _ => (add (Print "❌ Error: Port must be a number") s, Raise (Py.SystemExit 1))
    end.
Proof.
  intros Hargv. unfold parse_command_line.
  rewrite (argv_at_lookup 1 "--port"), (argv_at_lookup 2 v) by (by rewrite Hargv).
  rewrite Hargv.
  rewrite (bool_decide_eq_true_2 (1 < _)) by (simpl; lia).
  rewrite (bool_decide_eq_true_2 (2 < _)) by (simpl; lia).
  rewrite (bool_decide_eq_true_2 (_ = _)) by done.
  unfold try_except, int, mbind, M_bind, raise, mret, M_ret.
  by destruct (builtin_int w v) as [message|n].
Qed.

Lemma parse_help (prog a : string) (rest : list string) (s : state) :
  sys_argv w = prog :: a :: rest →
  a ∈ ["-h"; "--help"] →
  parse_command_line w s =
    (State (PORT s)
       (events s ++ [Print "Usage: python server.py [--port PORT]";
                     Print "  --port PORT    Use a specific port (default: 8000)";
                     Print "  -h, --help     Show this help message"]),
     Raise (Py.SystemExit 0)).
Proof.
  intros Hargv Ha. unfold parse_command_line.
  rewrite (argv_at_lookup 1 a) by (by rewrite Hargv).
  rewrite Hargv.
  rewrite (bool_decide_eq_true_2 (1 < _)) by (simpl; lia).
  rewrite (bool_decide_eq_false_2 (a = _)).
  2:{ intros ->. rewrite !elem_of_cons, elem_of_nil in Ha.
      destruct Ha as [?|[?|[]]]; discriminate. }
  rewrite (bool_decide_eq_true_2 (_ ∈ _)) by done.
  simpl. rewrite !print_step. unfold sys_exit, raise. state_simpl.
  by rewrite <- !app_assoc.
Qed.

Lemma parse_other (prog a : string) (rest : list string) (s : state) :
  sys_argv w = prog :: a :: rest →
  a ∉ ["-h"; "--help"] →
  (a = "--port" → rest = []) →
  parse_command_line w s = (s, Ret tt).
Proof.
  intros Hargv Ha Hport. unfold parse_command_line.
  rewrite (argv_at_lookup 1 a) by (by rewrite Hargv).
  rewrite Hargv.
  rewrite (bool_decide_eq_true_2 (1 < _)) by (simpl; lia).
  rewrite (bool_decide_eq_false_2 (_ ∈ _)) by done.
  case_bool_decide as E; [|done].
  rewrite (Hport E). simpl. done.
Qed.

(** The cases above are all there are. *)
Lemma command_line_cases :
  (length (sys_argv w) ≤ 1)%nat
  ∨ (∃ prog v rest, sys_argv w = prog :: "--port" :: v :: rest)
  ∨ (∃ prog a rest, sys_argv w = prog :: a :: rest ∧ a ∈ ["-h"; "--help"])
  ∨ (∃ prog a rest, sys_argv w = prog :: a :: rest ∧ (a ∉ ["-h"; "--help"])
                    ∧ (a = "--port" → rest = [])).
Proof.
  destruct (sys_argv w) as [|prog [|a rest]]; [left; simpl; lia..|].
  right. destruct (decide (a ∈ ["-h"; "--help"])) as [Hh|Hh].
  { right. left. eauto. }
  destruct (decide (a = "--port")) as [->|Hp].
  - destruct rest as [|v rest]; [|left; eauto].
    right. right. eauto 10.
  - right. right. exists prog, a, rest. naive_solver.
Qed.

(** When parsing lets start-up go on, it has printed nothing, and the port
    is the one the module started with or the integer read after
    [--port]. *)
Lemma parse_proceeds (s s1 : state) :
  parse_command_line w s = (s1, Ret tt) →
  events s1 = events s
  ∧ (PORT s1 = PORT s
     ∨ ∃ prog v rest, sys_argv w = prog :: "--port" :: v :: rest
                      ∧ builtin_int w v = inr (PORT s1)).
Proof.
  intros Hparse.
  destruct command_line_cases
    as [Hlen|[(prog & v & rest & Hargv)|[(prog & a & rest & Hargv & Ha)
       |(prog & a & rest & Hargv & Ha & Hp)]]].
  - rewrite parse_without_argument in Hparse by done.
    injection Hparse as <-. auto.
  - rewrite (parse_port _ _ _ _ Hargv) in Hparse.
    destruct (builtin_int w v) as [message|n] eqn:E; [done|].
    injection Hparse as <-. simpl. split; [done|]. right. eauto.
  - rewrite (parse_help _ _ _ _ Hargv Ha) in Hparse. done.
  - rewrite (parse_other _ _ _ _ Hargv Ha Hp) in Hparse.
    injection Hparse as <-. auto.
Qed.

End command_line.

(** *** Starting the server *)

Section starting.
Context (w : world).

Lemma with_TCPServer_run {A} (host : string) (port : Z) (body : M A) (s : state) :
  with_TCPServer w host port body s =
    match bind_outcome w host port with
    | Some e => (add (TCPServer host port) s, Raise e)
    | None =>
        match body (add (TCPServer host port) s) with
        | (s', Blocked) => (s', Blocked)
        | (s', r) => (add ServerClose s', r)
        end
    end.
Proof.
  unfold with_TCPServer. destruct (bind_outcome w host port); reflexivity.
Qed.

(** The browser step never fails: whatever [webbrowser.open] raises is
    caught, and one of two lines is printed. *)
Lemma browser_step (url opened failed : string) (s : state) :
  try_except (webbrowser_open w url ;; print opened) (λ _, Some (print failed)) s
  = (add (Print (match browser_outcome w url with
                 | None => opened
                 | Some _ => failed
                 end))
         (add (WebbrowserOpen url) s),
     Ret tt).
Proof.
  unfold try_except, webbrowser_open, mbind, M_bind, emit.
  destruct (browser_outcome w url); reflexivity.
Qed.

Lemma serve_forever_run (s : state) :
  serve_forever w s = (add ServeForever s, serving w).
Proof.
  unfold serve_forever, serving, mbind, M_bind, emit.
  destruct (serve_outcome w); reflexivity.
Qed.

(** The body of the [with] block prints the banner, tries the browser, and
    enters the accept loop; it ends as the loop ends. *)
Lemma start_server_body_run (port : Z) (s : state) :
  ∃ evs, start_server_body w port s = (State (PORT s) (evs ++ [ServeForever]), serving w)
         ∧ events s `prefix_of` evs.
Proof.
  assert (∃ s', start_server_body w port s = (add ServeForever s', serving w)
                ∧ PORT s' = PORT s ∧ events s `prefix_of` events s')
    as (s' & -> & HPORT & Hprefix).
  { unfold start_server_body.
    rewrite !print_step.
    erewrite bind_step by apply browser_step.
    rewrite !print_step, serve_forever_run.
    eexists. split; [reflexivity|]. split.
    - by rewrite !PORT_add.
    - repeat apply prefix_add. done. }
  exists (events s'). by rewrite add_eq, HPORT.
Qed.

Lemma start_server_bind_fails (s : state) (e : Py.exn) :
  bind_outcome w HOST (PORT s) = Some e →
  start_server w s =
    match start_server_except (PORT s) e with
    | Some h => h (add (TCPServer HOST (PORT s)) s)
    | None => (add (TCPServer HOST (PORT s)) s, Raise e)
    end.
Proof.
  intros Hbind. unfold start_server.
  erewrite bind_step by reflexivity.
  unfold try_except. rewrite with_TCPServer_run, Hbind. done.
Qed.

Lemma start_server_bound (s : state) :
  bind_outcome w HOST (PORT s) = None →
  ∃ evs,
    events s ++ [TCPServer HOST (PORT s)] `prefix_of` evs
    ∧ start_server w s =
        match serve_outcome w with
        | None => (State (PORT s) (evs ++ [ServeForever]), Blocked)
        | Some e =>
            let s' := State (PORT s) (evs ++ [ServeForever; ServerClose]) in
            match start_server_except (PORT s) e with
            | Some h => h s'
            | None => (s', Raise e)
            end
        end.
Proof.
  intros Hbind.
  destruct (start_server_body_run (PORT s) (add (TCPServer HOST (PORT s)) s))
    as (evs & Hbody & Hprefix).
  exists evs. split; [done|].
  unfold start_server.
  erewrite bind_step by reflexivity.
  unfold try_except. rewrite with_TCPServer_run, Hbind, Hbody.
  unfold serving. destruct (serve_outcome w) as [e|]; [|done].
  state_simpl. by rewrite <- app_assoc.
Qed.

Lemma check_files_run (s : state) :
  check_files w s =
    match fs w !! "index.html" with
    | Some _ => (State (PORT s) (events s ++ optional_note w optional_files), Ret true)
    | None => (State (PORT s) (events s ++ required_error ["index.html"]), Ret false)
    end.
Proof.
  unfold check_files. rewrite check_files_of_run.
  unfold absent at 1, required_files. rewrite filter_cons, filter_nil.
  destruct (fs w !! "index.html") as [n|] eqn:E.
  - by rewrite decide_False.
  - by rewrite decide_True.
Qed.

(** The [__main__] block once the command line is parsed. *)
Lemma main_run (s0 s1 : state) :
  parse_command_line w s0 = (s1, Ret tt) →
  main w s0 =
    match fs w !! "index.html" with
    | Some _ => start_server w (State (PORT s1) (events s1 ++ optional_note w optional_files))
    | None =>
        (State (PORT s1)
           (events s1 ++ required_error ["index.html"]
            ++ [Print "❌ Please run this script from the project root directory"]),
         Raise (Py.SystemExit 1))
    end.
Proof.
  intros Hparse. unfold main.
  erewrite bind_step by exact Hparse.
  pose proof (check_files_run s1) as Hcheck.
  destruct (fs w !! "index.html") as [n|].
  - erewrite bind_step by exact Hcheck. done.
  - erewrite bind_step by exact Hcheck. cbn [negb].
    erewrite bind_raise; [reflexivity|].
    rewrite print_step. unfold sys_exit, raise. state_simpl.
    by rewrite <- app_assoc.
Qed.

Lemma main_stops (s0 s1 : state) (e : Py.exn) :
  parse_command_line w s0 = (s1, Raise e) → main w s0 = (s1, Raise e).
Proof. intros Hparse. unfold main. by erewrite bind_raise. Qed.

End starting.

(** *** The process *)

Section process.
Context (w : world).

Lemma run_exits (s : state) (code : Z) :
  main w (State PORT_default []) = (s, Raise (Py.SystemExit code)) →
  run w = (events s, Exit code).
Proof. intros E. unfold run. by rewrite E. Qed.

(** Every [except] clause of [start_server] only adds to what was
    printed. *)
Lemma start_server_except_adds (port : Z) (e : Py.exn) (h : M unit) (s : state) :
  start_server_except port e = Some h →
  ∃ more code, h s = (State (PORT s) (events s ++ more), Raise (Py.SystemExit code)).
Proof.
  unfold start_server_except. intros Hh.
  destruct e as [|code|msg|errno msg|msg|msg]; simplify_eq/=.
  - rewrite !print_step. unfold sys_exit, raise. state_simpl.
    eexists _, _. by rewrite <- !app_assoc.
  - rewrite print_step. eexists [_], _. done.
  - case_bool_decide.
    + erewrite bind_step by (rewrite !print_step; apply print_last).
      unfold sys_exit, raise. state_simpl.
      eexists _, _. by rewrite <- !app_assoc.
    + rewrite print_step. eexists [_], _. done.
  - rewrite print_step. eexists [_], _. done.
Qed.

(** [start_server] creates the socket before anything else. *)
Lemma start_server_creates_socket (s : state) :
  events s ++ [TCPServer HOST (PORT s)] `prefix_of` events (start_server w s).1.
Proof.
  destruct (bind_outcome w HOST (PORT s)) as [e|] eqn:Hbind.
  - rewrite (start_server_bind_fails w s e Hbind).
    destruct (start_server_except (PORT s) e) as [h|] eqn:Hh; [|done].
    destruct (start_server_except_adds _ _ _ (add (TCPServer HOST (PORT s)) s) Hh)
      as (more & code & ->).
    simpl. by apply prefix_app_r.
  - destruct (start_server_bound w s Hbind) as (evs & Hprefix & ->).
    destruct (serve_outcome w) as [e|]; [|by apply prefix_app_r].
    cbv zeta.
    destruct (start_server_except (PORT s) e) as [h|] eqn:Hh; [|by apply prefix_app_r].
    destruct (start_server_except_adds _ _ _
                (State (PORT s) (evs ++ [ServeForever; ServerClose])) Hh)
      as (more & code & ->).
    simpl. by do 2 apply prefix_app_r.
Qed.

(** Once the socket is bound, [start_server] reaches the accept loop. *)
Lemma start_server_serves (s : state) :
  bind_outcome w HOST (PORT s) = None →
  ServeForever ∈ events (start_server w s).1.
Proof.
  intros Hbind.
  destruct (start_server_bound w s Hbind) as (evs & Hprefix & ->).
  destruct (serve_outcome w) as [e|]; [|set_solver].
  cbv zeta.
  destruct (start_server_except (PORT s) e) as [h|] eqn:Hh; [|set_solver].
  destruct (start_server_except_adds _ _ _
              (State (PORT s) (evs ++ [ServeForever; ServerClose])) Hh)
    as (more & code & ->).
  set_solver.
Qed.

Lemma run_events (s : state) (r : result unit) :
  main w (State PORT_default []) = (s, r) → (run w).1 = events s.
Proof. intros E. unfold run. by rewrite E. Qed.

End process.

(** *** Start-up: the claims *)

(** C5.  [check_files], for any list of required and of optional files:
    when a required file is absent it returns [False] and prints the name
    of every absent required file; when every required file exists it
    returns [True], and absent optional files only add the note of
    [optional_note] to the output. *)
Theorem check_files_required_and_optional
    (w : world) (required optional : list string) (s : state) :
  ((∃ file, file ∈ required ∧ fs w !! file = None) →
   ∃ out,
     check_files_of w required optional s = (State (PORT s) (events s ++ out), Ret false)
     ∧ ∀ file, file ∈ required → fs w !! file = None →
               Print ("   • " +:+ file) ∈ out)
  ∧ ((∀ file, file ∈ required → fs w !! file ≠ None) →
     check_files_of w required optional s
     = (State (PORT s) (events s ++ optional_note w optional), Ret true)).
Proof.
  rewrite check_files_of_run. split.
  - intros (file & Hin & Hnone).
    destruct (absent w required) as [|m ms] eqn:E.
    { by destruct (proj1 (absent_nil w required) E file Hin). }
    eexists. split; [reflexivity|].
    intros file' Hin' Hnone'.
    assert (file' ∈ m :: ms) as Hm by (rewrite <- E; by apply elem_of_absent).
    unfold required_error. apply elem_of_cons. right.
    apply elem_of_app. left.
    by apply (list_elem_of_fmap_2 (λ f, Print ("   • " +:+ f))).
  - intros Hall. by rewrite (proj2 (absent_nil w required) Hall).
Qed.

(** C6.  When [int] refuses the value after [--port], whatever the
    interpreter's [int] is, the process prints the error line and exits
    with status 1; no socket is created. *)
Theorem port_must_be_a_number
    (w : world) (prog v : string) (rest : list string) (message : string) :
  sys_argv w = prog :: "--port" :: v :: rest →
  builtin_int w v = inl message →
  run w = ([Print "❌ Error: Port must be a number"], Exit 1)
  ∧ Forall (λ ev, ¬ opens_socket ev) (run w).1.
Proof.
  intros Hargv Hint.
  assert (run w = ([Print "❌ Error: Port must be a number"], Exit 1)) as ->.
  { apply (run_exits w (State PORT_default [Print "❌ Error: Port must be a number"])).
    apply main_stops. rewrite (parse_port w _ _ _ _ Hargv), Hint. done. }
  split; [done|]. repeat constructor. simpl. tauto.
Qed.

Lemma port_must_be_a_number_abc :
  run (dev_machine ["server.py"; "--port"; "abc"] site)
  = ([Print "❌ Error: Port must be a number"], Exit 1)
  ∧ Forall (λ ev, ¬ opens_socket ev)
           (run (dev_machine ["server.py"; "--port"; "abc"] site)).1.
Proof.
  apply (port_must_be_a_number
           (dev_machine ["server.py"; "--port"; "abc"] site)
           "server.py" "abc" []
           "invalid literal for int() with base 10: 'abc'");
    reflexivity.
Defined.

(** C4, as the code has it.  When argument parsing lets start-up go on and
    [index.html] is absent, the process names the file, exits with status 1,
    and creates no socket. *)
Theorem missing_index_stops_startup (w : world) (s1 : state) :
  parse_command_line w (State PORT_default []) = (s1, Ret tt) →
  fs w !! "index.html" = None →
  run w =
    ([Print "❌ Error: Required files are missing:";
      Print "   • index.html";
      Print (nl +:+ "💡 Make sure you're running this from the project root directory");
      Print "❌ Please run this script from the project root directory"],
     Exit 1)
  ∧ Forall (λ ev, ¬ opens_socket ev) (run w).1.
Proof.
  intros Hparse Hnone.
  destruct (parse_proceeds w _ _ Hparse) as [Hevents _].
  pose proof (main_run w _ _ Hparse) as Hmain.
  rewrite Hnone, Hevents in Hmain.
  rewrite (run_exits w _ _ Hmain). simpl.
  split; [done|]. repeat constructor; simpl; tauto.
Qed.

Lemma missing_index_in_empty_directory :
  run (dev_machine ["server.py"] ∅) =
    ([Print "❌ Error: Required files are missing:";
      Print "   • index.html";
      Print (nl +:+ "💡 Make sure you're running this from the project root directory");
      Print "❌ Please run this script from the project root directory"],
     Exit 1)
  ∧ Forall (λ ev, ¬ opens_socket ev) (run (dev_machine ["server.py"] ∅)).1.
Proof.
  apply (missing_index_stops_startup (dev_machine ["server.py"] ∅) (State 8000 []));
    reflexivity.
Defined.

(** C4, as stated, fails: with [-h] the process prints the usage text and
    exits with status 0 although [index.html] is absent. *)
Lemma help_in_empty_directory :
  fs (dev_machine ["server.py"; "-h"] ∅) !! "index.html" = None
  ∧ run (dev_machine ["server.py"; "-h"] ∅) =
      ([Print "Usage: python server.py [--port PORT]";
        Print "  --port PORT    Use a specific port (default: 8000)";
        Print "  -h, --help     Show this help message"],
       Exit 0).
Proof. split; reflexivity. Qed.

(** C7, as the code has it.  In every configuration that argument parsing
    accepts, the port is the default 8000, which is positive, or the
    integer that the interpreter's [int] read after [--port], whatever its
    sign. *)
Theorem accepted_port_is_default_or_parsed (w : world) (s1 : state) :
  parse_command_line w (State PORT_default []) = (s1, Ret tt) →
  (PORT s1 = 8000 ∧ 0 < PORT s1)%Z
  ∨ ∃ prog v rest, sys_argv w = prog :: "--port" :: v :: rest
                   ∧ builtin_int w v = inr (PORT s1).
Proof.
  intros Hparse.
  destruct (parse_proceeds w _ _ Hparse) as [_ [Hport|Hport]].
  - left. simpl in Hport. rewrite Hport. unfold PORT_default. lia.
  - by right.
Qed.

Lemma accepted_port_8001 :
  (8001 = 8000 ∧ 0 < 8001)%Z
  ∨ ∃ prog v rest, ["server.py"; "--port"; "8001"] = prog :: "--port" :: v :: rest
                   ∧ Py.ascii_int v = inr 8001%Z.
Proof.
  apply (accepted_port_is_default_or_parsed
           (dev_machine ["server.py"; "--port"; "8001"] site) (State 8001 [])).
  reflexivity.
Defined.

(** C7, as stated, fails: [--port 0] is accepted, and the socket is asked
    for port 0, which is not positive. *)
Lemma port_zero_is_accepted :
  parse_command_line (dev_machine ["server.py"; "--port"; "0"] site)
                     (State PORT_default [])
  = (State 0 [], Ret tt)
  ∧ TCPServer HOST 0 ∈ (run (dev_machine ["server.py"; "--port"; "0"] site)).1
  ∧ ¬ (0 < 0)%Z.
Proof.
  split; [reflexivity|]. split; [|lia].
  vm_compute. left.
Qed.

(** C8.  When the server has started (the command line was accepted,
    [index.html] exists, the socket is bound) and the user interrupts the
    accept loop, the loop is left, the server is closed, the farewell is
    printed, and the process exits with status 0. *)
Theorem interrupt_stops_server (w : world) (s1 : state) :
  parse_command_line w (State PORT_default []) = (s1, Ret tt) →
  is_Some (fs w !! "index.html") →
  bind_outcome w HOST (PORT s1) = None →
  serve_outcome w = Some Py.KeyboardInterrupt →
  ∃ before,
    run w =
      (before ++ [ServeForever; ServerClose;
                  Print (nl +:+ nl +:+ "🛑 Server stopped by user");
                  Print "👋 Goodbye!"],
       Exit 0).
Proof.
  intros Hparse [n Hindex] Hbind Hserve.
  pose proof (main_run w _ _ Hparse) as Hmain. rewrite Hindex in Hmain.
  destruct (start_server_bound w
              (State (PORT s1) (events s1 ++ optional_note w optional_files)) Hbind)
    as (evs & _ & Hstart).
  rewrite Hserve in Hstart. cbv zeta in Hstart. simpl in Hstart.
  rewrite !print_step in Hstart. rewrite Hstart in Hmain.
  exists evs. rewrite (run_exits w _ _ Hmain).
  state_simpl. by rewrite <- !app_assoc.
Qed.

Lemma interrupt_on_dev_machine :
  ∃ before,
    run (dev_machine ["server.py"] site) =
      (before ++ [ServeForever; ServerClose;
                  Print (nl +:+ nl +:+ "🛑 Server stopped by user");
                  Print "👋 Goodbye!"],
       Exit 0).
Proof.
  apply (interrupt_stops_server (dev_machine ["server.py"] site) (State 8000 []));
    [reflexivity | by eexists | reflexivity | reflexivity].
Defined.

(** C9.  A first argument that is neither [-h] nor [--help], and is not
    [--port] followed by a value, is ignored: parsing prints nothing and
    leaves the port at 8000, and the process behaves as if started without
    arguments. *)
Theorem other_argument_is_ignored
    (w : world) (prog a : string) (rest : list string) :
  sys_argv w = prog :: a :: rest →
  a ∉ ["-h"; "--help"] →
  (a = "--port" → rest = []) →
  parse_command_line w (State PORT_default []) = (State 8000 [], Ret tt)
  ∧ run w = run (with_argv [prog] w).
Proof.
  intros Hargv Ha Hport.
  pose proof (parse_other w _ _ _ (State PORT_default []) Hargv Ha Hport) as Hparse.
  split; [done|].
  assert (parse_command_line (with_argv [prog] w) (State PORT_default [])
          = (State PORT_default [], Ret tt)) as Hparse'.
  { apply parse_without_argument. simpl. lia. }
  unfold run.
  rewrite (main_run w _ _ Hparse), (main_run (with_argv [prog] w) _ _ Hparse').
  reflexivity.
Qed.

Lemma port_without_value_is_ignored :
  parse_command_line (dev_machine ["server.py"; "--port"] site) (State PORT_default [])
  = (State 8000 [], Ret tt)
  ∧ run (dev_machine ["server.py"; "--port"] site)
    = run (with_argv ["server.py"] (dev_machine ["server.py"; "--port"] site)).
Proof.
  apply (other_argument_is_ignored
           (dev_machine ["server.py"; "--port"] site) "server.py" "--port" []).
  - reflexivity.
  - apply (bool_decide_unpack _). vm_compute. exact I.
  - reflexivity.
Defined.

(** C10.  The check tests existence only: when [index.html] is a
    directory [check_files] returns [True], and once the command line is
    accepted the socket is created and, if it can be bound, the accept loop
    is entered. *)
Theorem directory_named_index_passes
    (w : world) (s : state) :
  fs w !! "index.html" = Some Directory →
  check_files w s = (State (PORT s) (events s ++ optional_note w optional_files), Ret true)
  ∧ ∀ s1, parse_command_line w (State PORT_default []) = (s1, Ret tt) →
          TCPServer HOST (PORT s1) ∈ (run w).1
          ∧ (bind_outcome w HOST (PORT s1) = None → ServeForever ∈ (run w).1).
Proof.
  intros Hdir. split.
  - unfold check_files. rewrite check_files_of_run.
    unfold absent at 1, required_files.
    rewrite filter_cons, filter_nil, decide_False by (by rewrite Hdir). done.
  - intros s1 Hparse.
    pose proof (main_run w _ _ Hparse) as Hmain. rewrite Hdir in Hmain.
    set (s2 := State (PORT s1) (events s1 ++ optional_note w optional_files)) in *.
    rewrite (run_events w (start_server w s2).1 (start_server w s2).2)
      by (rewrite Hmain; by destruct (start_server w s2)).
    split.
    + destruct (start_server_creates_socket w s2) as [more ->].
      set_solver.
    + intros Hbind. by apply start_server_serves.
Qed.

Lemma directory_named_index_on_dev_machine :
  check_files (dev_machine ["server.py"] {[ "index.html" := Directory ]}) (State 8000 [])
  = (State 8000 ([] ++ optional_note (dev_machine ["server.py"] {[ "index.html" := Directory ]})
                                     optional_files),
     Ret true)
  ∧ ∀ s1,
      parse_command_line (dev_machine ["server.py"] {[ "index.html" := Directory ]})
                         (State PORT_default []) = (s1, Ret tt) →
      TCPServer HOST (PORT s1)
        ∈ (run (dev_machine ["server.py"] {[ "index.html" := Directory ]})).1
      ∧ (bind_outcome (dev_machine ["server.py"] {[ "index.html" := Directory ]})
                      HOST (PORT s1) = None →
         ServeForever ∈ (run (dev_machine ["server.py"] {[ "index.html" := Directory ]})).1).
Proof.
  apply (directory_named_index_passes
           (dev_machine ["server.py"] {[ "index.html" := Directory ]}) (State 8000 [])).
  reflexivity.
Defined.

(** A failed bind, or any other error raised while the server starts or
    runs, ends the process with status 1 whatever the error number. *)
Lemma error_exits_with_status_1 (port : Z) (e : Py.exn) (s : state) :
  Py.isinstance_Exception e = true →
  ∃ h more, start_server_except port e = Some h
            ∧ h s = (State (PORT s) (events s ++ more), Raise (Py.SystemExit 1)).
Proof.
  intros He. unfold start_server_except.
  destruct e as [|code|msg|errno msg|msg|msg]; simplify_eq/=.
  - eexists _, [_]. split; [reflexivity|]. by rewrite print_step.
  - eexists _, (if bool_decide (errno = Some 48%Z) then _ else [_]).
    split; [reflexivity|].
    case_bool_decide.
    + erewrite bind_step by (rewrite !print_step; apply print_last).
      unfold sys_exit, raise. state_simpl. by rewrite <- !app_assoc.
    + erewrite bind_step by apply print_last. reflexivity.
  - eexists _, [_]. split; [reflexivity|]. by rewrite print_step.
Qed.

(** C3, where the code departs from it.  The port-in-use lines are printed
    for error number 48 only, the value of [EADDRINUSE] on macOS.  On Linux
    a port in use is error 98, and the process prints the generic line,
    which does not name the port. *)
Theorem port_in_use_on_linux :
  EADDRINUSE linux = 98%Z
  ∧ run (port_taken linux ["server.py"]) =
      ([TCPServer "localhost" 8000;
        Print "❌ Error starting server: [Errno 98] Address already in use"],
       Exit 1)
  ∧ run (port_taken darwin ["server.py"]) =
      ([TCPServer "localhost" 8000;
        Print "❌ Error: Port 8000 is already in use";
        Print "💡 Try a different port or stop the process using port 8000";
        Print "🔧 Alternative: python server.py --port 8001"],
       Exit 1).
Proof. repeat split; vm_compute; reflexivity. Qed.

(** *** The request handler: the claims *)

Import Handler.

Section responses.
Context (lib : library).

Lemma answers_refl (h : handler) : answers_with_cors h h.
Proof. exists []. by rewrite app_nil_r. Qed.

Lemma answers_trans (h1 h2 h3 : handler) :
  answers_with_cors h1 h2 → answers_with_cors h2 h3 → answers_with_cors h1 h3.
Proof.
  intros (new1 & E1 & F1) (new2 & E2 & F2).
  exists (new1 ++ new2). rewrite E2, E1, <- app_assoc.
  split; [done|]. by apply Forall_app.
Qed.

(** A step that leaves [wfile] alone. *)
Lemma answers_same_wfile (h h' : handler) :
  wfile h' = wfile h → answers_with_cors h h'.
Proof. intros E. exists []. by rewrite app_nil_r. Qed.

Lemma send_header_wfile (keyword value : string) (h : handler) :
  wfile (send_header keyword value h) = wfile h.
Proof. unfold send_header. by case_bool_decide. Qed.

Lemma send_header_version (keyword value : string) (h : handler) :
  request_version (send_header keyword value h) = request_version h.
Proof. unfold send_header. by case_bool_decide. Qed.

Lemma send_header_buffer (keyword value : string) (h : handler) :
  request_version h ≠ "HTTP/0.9" →
  headers_buffer (send_header keyword value h) = headers_buffer h ++ [Header keyword value].
Proof. intros Hv. unfold send_header. by rewrite bool_decide_eq_true_2. Qed.

Lemma send_response_only_wfile (code : Z) (h : handler) :
  wfile (send_response_only lib code h) = wfile h.
Proof. unfold send_response_only. by case_bool_decide. Qed.

Lemma send_response_wfile (code : Z) (h : handler) :
  wfile (send_response lib code h) = wfile h.
Proof.
  unfold send_response.
  by rewrite !send_header_wfile, send_response_only_wfile.
Qed.

(** The heart of the matter: the block that [end_headers] flushes ends with
    the three headers it has just queued; for an HTTP/0.9 request nothing
    is queued and nothing is flushed. *)
Lemma end_headers_wfile (h : handler) :
  wfile (end_headers h) =
    if bool_decide (request_version h ≠ "HTTP/0.9")
    then wfile h ++ [HeaderBlock (headers_buffer h ++ cors_headers)]
    else wfile h.
Proof.
  unfold end_headers, BaseHTTPRequestHandler_end_headers.
  rewrite !send_header_version.
  case_bool_decide as Hv.
  - unfold flush_headers. simpl.
    rewrite !send_header_wfile.
    rewrite send_header_buffer by (by rewrite !send_header_version).
    rewrite send_header_buffer by (by rewrite !send_header_version).
    rewrite send_header_buffer by done.
    by rewrite <- !app_assoc.
  - by rewrite !send_header_wfile.
Qed.

Lemma end_headers_answers (h : handler) : answers_with_cors h (end_headers h).
Proof.
  unfold answers_with_cors. rewrite end_headers_wfile.
  case_bool_decide; [|apply answers_refl].
  eexists. split; [done|].
  repeat constructor. simpl. intros x Hx. apply elem_of_app. by right.
Qed.

(** The library's methods on a handler written out field by field. *)
Lemma log_message_mk (format : string) (args : list string)
    (rl c p v : string) (buf : list header_line) (wf : list sent) (out : list string) :
  log_message lib format args (MkHandler rl c p v buf wf out)
  = MkHandler rl c p v buf wf
      (out ++ ["[" +:+ log_date_time_string lib +:+ "] " +:+ percent lib format args]).
Proof. reflexivity. Qed.

Lemma send_response_only_mk (code : Z)
    (rl c p v : string) (buf : list header_line) (wf : list sent) (out : list string) :
  v ≠ "HTTP/0.9" →
  send_response_only lib code (MkHandler rl c p v buf wf out)
  = MkHandler rl c p v
      (buf ++ [StatusLine (protocol_version lib) code (responses lib code)]) wf out.
Proof.
  intros Hv. unfold send_response_only. cbn [request_version].
  by rewrite bool_decide_eq_true_2.
Qed.

Lemma send_header_mk (keyword value : string)
    (rl c p v : string) (buf : list header_line) (wf : list sent) (out : list string) :
  v ≠ "HTTP/0.9" →
  send_header keyword value (MkHandler rl c p v buf wf out)
  = MkHandler rl c p v (buf ++ [Header keyword value]) wf out.
Proof.
  intros Hv. unfold send_header. cbn [request_version].
  by rewrite bool_decide_eq_true_2.
Qed.

Lemma base_end_headers_mk
    (rl c p v : string) (buf : list header_line) (wf : list sent) (out : list string) :
  v ≠ "HTTP/0.9" →
  BaseHTTPRequestHandler_end_headers (MkHandler rl c p v buf wf out)
  = MkHandler rl c p v [] (wf ++ [HeaderBlock buf]) out.
Proof.
  intros Hv. unfold BaseHTTPRequestHandler_end_headers. cbn [request_version].
  by rewrite bool_decide_eq_true_2.
Qed.

Lemma run_call_answers (h : handler) (c : call) :
  answers_with_cors h (run_call lib h c).
Proof.
  destruct c; simpl.
  - apply answers_same_wfile, send_response_wfile.
  - apply answers_same_wfile, send_response_only_wfile.
  - apply answers_same_wfile, send_header_wfile.
  - apply end_headers_answers.
  - exists [Body data]. split; [done|]. by repeat constructor.
  - by apply answers_same_wfile.
Qed.

Lemma run_calls_answers (calls : list call) (h : handler) :
  answers_with_cors h (run_calls lib calls h).
Proof.
  unfold run_calls. revert h.
  induction calls as [|c calls IH]; intros h; simpl.
  - apply answers_refl.
  - eapply answers_trans; [apply run_call_answers | apply IH].
Qed.

Lemma do_OPTIONS_answers (h : handler) : answers_with_cors h (do_OPTIONS lib h).
Proof.
  unfold do_OPTIONS.
  eapply answers_trans; [|apply end_headers_answers].
  apply answers_same_wfile, send_response_wfile.
Qed.

End responses.

(** Whatever the library does with a request, every header block that
    handling it writes to the client carries the three CORS headers.  How
    many blocks are written, and when none is, is settled further down. *)
Lemma every_response_carries_cors
    (lib : library) (files : gmap string node) (h : handler) :
  answers_with_cors h (handle_one_request lib files h).
Proof.
  unfold handle_one_request.
  destruct (parse_request lib h) as [calls parsed].
  eapply answers_trans; [apply run_calls_answers|].
  destruct parsed; [|apply answers_refl].
  unfold method. case_bool_decide.
  - apply do_OPTIONS_answers.
  - apply run_calls_answers.
Qed.

(** A [GET] through the sample library: the block the library builds leaves
    with the three headers at its end, and the body follows. *)
Example get_index_on_sample_library :
  wfile (handle_one_request sample_library site
           (request "GET /index.html HTTP/1.1" "GET" "/index.html" "HTTP/1.1"))
  = [HeaderBlock
       [StatusLine "HTTP/1.0" 200 "OK";
        Header "Server" "SimpleHTTP/0.6 Python/3.11.2";
        Header "Date" "Tue, 03 Nov 2026 12:00:00 GMT";
        Header "Content-type" "text/html";
        Header "Access-Control-Allow-Origin" "*";
        Header "Access-Control-Allow-Methods" "GET, POST, OPTIONS";
        Header "Access-Control-Allow-Headers" "Content-Type"];
     Body "<!DOCTYPE html>"].
Proof. vm_compute. reflexivity. Qed.

(** C2, as the code has it.  An [OPTIONS] request whose version is not
    HTTP/0.9, for any path and whatever the files served, is answered by
    one header block and no body: the status line 200, the library's
    [Server] and [Date] headers, and the three CORS headers; the request is
    logged. *)
Theorem options_is_answered_200
    (lib : library) (files : gmap string node)
    (requestline path version : string) :
  version ≠ "HTTP/0.9" →
  method lib files (request requestline "OPTIONS" path version) =
    MkHandler requestline "OPTIONS" path version []
      [HeaderBlock
         (StatusLine (protocol_version lib) 200 (responses lib 200)
          :: Header "Server" (version_string lib)
          :: Header "Date" (date_time_string lib)
          :: cors_headers)]
      ["[" +:+ log_date_time_string lib +:+ "] "
       +:+ percent lib (quote +:+ "%s" +:+ quote +:+ " %s %s") [requestline; "200"; "-"]].
Proof.
  intros Hv. unfold method, request. cbn [command].
  rewrite bool_decide_eq_true_2 by done.
  unfold do_OPTIONS, end_headers, send_response, log_request.
  cbn [Handler.requestline].
  rewrite log_message_mk, send_response_only_mk by done.
  rewrite !send_header_mk by done.
  rewrite base_end_headers_mk by done.
  cbn [app]. reflexivity.
Qed.

Lemma options_on_sample_library :
  method sample_library site (request "OPTIONS /cart HTTP/1.1" "OPTIONS" "/cart" "HTTP/1.1") =
    MkHandler "OPTIONS /cart HTTP/1.1" "OPTIONS" "/cart" "HTTP/1.1" []
      [HeaderBlock
         [StatusLine "HTTP/1.0" 200 "OK";
          Header "Server" "SimpleHTTP/0.6 Python/3.11.2";
          Header "Date" "Tue, 03 Nov 2026 12:00:00 GMT";
          Header "Access-Control-Allow-Origin" "*";
          Header "Access-Control-Allow-Methods" "GET, POST, OPTIONS";
          Header "Access-Control-Allow-Headers" "Content-Type"]]
      ["[03/Nov/2026 12:00:00] " +:+ quote +:+ "OPTIONS /cart HTTP/1.1" +:+ quote +:+ " 200 -"].
Proof.
  apply (options_is_answered_200 sample_library site "OPTIONS /cart HTTP/1.1" "/cart" "HTTP/1.1").
  discriminate.
Defined.

(** *** Whole runs

    [start_server] and the process written out event by event; the
    properties below are read off these equations. *)

Section traces.
Context (w : world).

Lemma start_server_body_trace (port : Z) (s : state) :
  start_server_body w port s
  = (State (PORT s) (events s ++ startup_events w port), serving w).
Proof.
  unfold start_server_body.
  rewrite !print_step.
  erewrite bind_step by apply browser_step.
  rewrite !print_step, serve_forever_run.
  state_simpl.
  unfold startup_events, banner, browser_events, started, browser_url, base_url.
  rewrite <- !app_assoc. reflexivity.
Qed.

Lemma except_trace (port : Z) (e : Py.exn) (s : state) :
  match start_server_except port e with
  | Some h => h s
  | None => (s, Raise e)
  end
  = (State (PORT s) (events s ++ error_lines port e), ending e).
Proof.
  destruct s as [p evs].
  destruct e as [|code|msg|errno msg|msg|msg];
    unfold start_server_except, error_lines, ending;
    cbn [Py.isinstance_Exception PORT events].
  - rewrite !print_step. unfold sys_exit, raise. state_simpl.
    by rewrite <- !app_assoc.
  - by rewrite app_nil_r.
  - rewrite print_step. reflexivity.
  - case_bool_decide.
    + erewrite bind_step by (rewrite !print_step; apply print_last).
      unfold sys_exit, raise. state_simpl. by rewrite <- !app_assoc.
    + erewrite bind_step by apply print_last. reflexivity.
  - rewrite print_step. reflexivity.
  - by rewrite app_nil_r.
Qed.

Lemma start_server_trace (s : state) :
  start_server w s
  = (State (PORT s)
       (events s ++ TCPServer HOST (PORT s) :: (server_trace w (PORT s)).1),
     (server_trace w (PORT s)).2).
Proof.
  unfold start_server, server_trace.
  erewrite bind_step by reflexivity.
  unfold try_except. rewrite with_TCPServer_run.
  destruct (bind_outcome w HOST (PORT s)) as [e|].
  - rewrite except_trace. state_simpl. by rewrite <- app_assoc.
  - rewrite start_server_body_trace. unfold serving.
    destruct (serve_outcome w) as [e|].
    + rewrite except_trace. state_simpl.
      rewrite <- !app_assoc. reflexivity.
    + state_simpl. rewrite <- !app_assoc. reflexivity.
Qed.

Lemma run_outcome (s : state) (r : result unit) :
  main w (State PORT_default []) = (s, r) → run w = (events s, outcome_of r).
Proof.
  intros E. unfold run. rewrite E.
  destruct r as [[]|e|]; [done| |done]. by destruct e.
Qed.

(** A run that gets past the command line and finds [index.html]. *)
Lemma run_trace (s1 : state) :
  parse_command_line w (State PORT_default []) = (s1, Ret tt) →
  is_Some (fs w !! "index.html") →
  run w = (optional_note w optional_files
           ++ TCPServer HOST (PORT s1) :: (server_trace w (PORT s1)).1,
           outcome_of (server_trace w (PORT s1)).2).
Proof.
  intros Hparse [n Hindex].
  destruct (parse_proceeds w _ _ Hparse) as [Hevents _].
  pose proof (main_run w _ _ Hparse) as Hmain.
  rewrite Hindex, start_server_trace, Hevents in Hmain.
  by rewrite (run_outcome _ _ Hmain).
Qed.

(** Every run is one of four: stopped by the command line (a bad port, or
    the usage text), stopped by the missing [index.html], or started. *)
Lemma run_cases :
  run w = ([Print "❌ Error: Port must be a number"], Exit 1)
  ∨ run w = (usage, Exit 0)
  ∨ run w = (required_error ["index.html"]
             ++ [Print "❌ Please run this script from the project root directory"],
             Exit 1)
  ∨ ∃ s1, parse_command_line w (State PORT_default []) = (s1, Ret tt)
          ∧ is_Some (fs w !! "index.html")
          ∧ run w = (optional_note w optional_files
                     ++ TCPServer HOST (PORT s1) :: (server_trace w (PORT s1)).1,
                     outcome_of (server_trace w (PORT s1)).2).
Proof.
  destruct (parse_command_line w (State PORT_default [])) as [s1 r] eqn:Hparse.
  destruct r as [[]|e|].
  - destruct (fs w !! "index.html") as [n|] eqn:Hindex.
    + right. right. right. exists s1.
      split; [done|]. split; [by eexists|]. apply run_trace; by eauto.
    + right. right. left.
      destruct (parse_proceeds w _ _ Hparse) as [Hevents _].
      pose proof (main_run w _ _ Hparse) as Hmain.
      rewrite Hindex, Hevents in Hmain.
      by rewrite (run_outcome _ _ Hmain).
  - rewrite (run_outcome _ _ (main_stops w _ _ _ Hparse)).
    destruct (command_line_cases w)
      as [Hlen|[(prog & v & rest & Hargv)|[(prog & a & rest & Hargv & Ha)
         |(prog & a & rest & Hargv & Ha & Hp)]]].
    + rewrite parse_without_argument in Hparse by done. done.
    + rewrite (parse_port w _ _ _ _ Hargv) in Hparse.
      destruct (builtin_int w v); [|done].
      injection Hparse as <- <-. by left.
    + rewrite (parse_help w _ _ _ _ Hargv Ha) in Hparse.
      injection Hparse as <- <-. right. by left.
    + rewrite (parse_other w _ _ _ _ Hargv Ha Hp) in Hparse. done.
  - destruct (command_line_cases w)
      as [Hlen|[(prog & v & rest & Hargv)|[(prog & a & rest & Hargv & Ha)
         |(prog & a & rest & Hargv & Ha & Hp)]]].
    + rewrite parse_without_argument in Hparse by done. done.
    + rewrite (parse_port w _ _ _ _ Hargv) in Hparse. by destruct (builtin_int w v).
    + rewrite (parse_help w _ _ _ _ Hargv Ha) in Hparse. done.
    + rewrite (parse_other w _ _ _ _ Hargv Ha Hp) in Hparse. done.
Qed.

End traces.

(** *** What the pieces of a run hold *)

Lemma optional_note_prints (w : world) (optional : list string) (ev : event) :
  ev ∈ optional_note w optional → ∃ line, ev = Print line.
Proof.
  unfold optional_note. destruct (absent w optional) as [|m ms].
  { intros H. by apply not_elem_of_nil in H. }
  rewrite elem_of_cons, elem_of_app, list_elem_of_fmap, elem_of_cons, elem_of_nil.
  intros [->|[(file & -> & _)|[->|[]]]]; eauto.
Qed.

Lemma error_lines_prints (port : Z) (e : Py.exn) (ev : event) :
  ev ∈ error_lines port e → ∃ line, ev = Print line.
Proof.
  unfold error_lines.
  destruct e as [|code|msg|errno msg|msg|msg]; cbn [Py.isinstance_Exception];
    try case_bool_decide;
    rewrite ?elem_of_cons, elem_of_nil; intros Hin;
    repeat (destruct Hin as [->|Hin]; [eauto|]); done.
Qed.

Lemma startup_events_hold (w : world) (port : Z) (ev : event) :
  ev ∈ startup_events w port →
  (∃ line, ev = Print line) ∨ ev = WebbrowserOpen (browser_url port) ∨ ev = ServeForever.
Proof.
  unfold startup_events, banner, browser_events, started.
  rewrite !elem_of_app, !elem_of_cons, !elem_of_nil. intros H.
  repeat (destruct H as [H|H]); subst; try done; eauto.
Qed.

Lemma sockets_none (evs : list event) :
  (∀ ev, ev ∈ evs → ¬ opens_socket ev) → sockets evs = [].
Proof.
  induction evs as [|ev evs IH]; [done|]. intros H.
  destruct ev as [line|host port| |url|];
    try (apply IH; intros ev' Hin; apply H; by right).
  exfalso. apply (H (TCPServer host port)); [apply elem_of_cons; by left | exact I].
Qed.

Lemma sockets_app (evs1 evs2 : list event) :
  sockets (evs1 ++ evs2) = sockets evs1 ++ sockets evs2.
Proof. apply omap_app. Qed.

Lemma sockets_optional_note (w : world) (optional : list string) :
  sockets (optional_note w optional) = [].
Proof.
  apply sockets_none. intros ev Hin.
  destruct (optional_note_prints _ _ _ Hin) as [line ->]. by intros [].
Qed.

Lemma sockets_server_trace (w : world) (port : Z) :
  sockets (server_trace w port).1 = [].
Proof.
  apply sockets_none. intros ev. unfold server_trace.
  destruct (bind_outcome w HOST port) as [e|]; cbn [fst].
  { intros Hin. destruct (error_lines_prints _ _ _ Hin) as [line ->]. by intros []. }
  destruct (serve_outcome w) as [e|]; cbn [fst].
  - rewrite elem_of_app, elem_of_cons.
    intros [Hin|[->|Hin]]; [|by intros []|].
    + destruct (startup_events_hold _ _ _ Hin) as [[line ->]|[->| ->]]; by intros [].
    + destruct (error_lines_prints _ _ _ Hin) as [line ->]. by intros [].
  - intros Hin.
    destruct (startup_events_hold _ _ _ Hin) as [[line ->]|[->| ->]]; by intros [].
Qed.

Lemma sockets_cons_TCPServer (host : string) (port : Z) (evs : list event) :
  sockets (TCPServer host port :: evs) = (host, port) :: sockets evs.
Proof. reflexivity. Qed.

Lemma startup_in_server_trace (w : world) (port : Z) (ev : event) :
  bind_outcome w HOST port = None →
  ev ∈ startup_events w port → ev ∈ (server_trace w port).1.
Proof.
  intros Hbind Hin. unfold server_trace. rewrite Hbind.
  destruct (serve_outcome w); cbn [fst]; [|done].
  apply elem_of_app. by left.
Qed.

Lemma banner_shows_address (w : world) (port : Z) :
  Print ("📍 Server running at: " +:+ base_url port) ∈ startup_events w port.
Proof.
  unfold startup_events. apply elem_of_app. left.
  by apply (list_elem_of_lookup_2 _ 3).
Qed.

Lemma browser_in_startup (w : world) (port : Z) :
  WebbrowserOpen (browser_url port) ∈ startup_events w port.
Proof.
  unfold startup_events. apply elem_of_app. right.
  apply elem_of_app. left. by apply (list_elem_of_lookup_2 _ 0).
Qed.

Lemma last_startup_events (w : world) (port : Z) (before : list event) :
  last (before ++ startup_events w port) = Some ServeForever.
Proof.
  unfold startup_events. rewrite !app_assoc. apply last_snoc.
Qed.

(** *** Start-up: further properties *)

(** X1.  With [-h] or [--help] as first argument the process prints the
    three usage lines and exits with status 0, whatever follows on the
    command line and whatever the working directory holds; it checks no
    file and creates no socket. *)
Theorem help_prints_usage_and_exits_0
    (w : world) (prog a : string) (rest : list string) :
  sys_argv w = prog :: a :: rest →
  a ∈ ["-h"; "--help"] →
  run w =
    ([Print "Usage: python server.py [--port PORT]";
      Print "  --port PORT    Use a specific port (default: 8000)";
      Print "  -h, --help     Show this help message"],
     Exit 0).
Proof.
  intros Hargv Ha.
  by rewrite (run_outcome w _ _
                (main_stops w _ _ _
                   (parse_help w _ _ _ (State PORT_default []) Hargv Ha))).
Qed.

Lemma help_before_a_bad_port :
  run (dev_machine ["server.py"; "--help"; "--port"; "abc"] ∅) =
    ([Print "Usage: python server.py [--port PORT]";
      Print "  --port PORT    Use a specific port (default: 8000)";
      Print "  -h, --help     Show this help message"],
     Exit 0).
Proof.
  apply (help_prints_usage_and_exits_0
           (dev_machine ["server.py"; "--help"; "--port"; "abc"] ∅)
           "server.py" "--help" ["--port"; "abc"]).
  - reflexivity.
  - apply (bool_decide_unpack _). vm_compute. exact I.
Defined.

(** X2.  The integer given after [--port] is the port of the one socket
    the process asks for, on [localhost]; arguments after the value are
    not read.  When the bind succeeds the banner shows that port and the
    browser is sent to it. *)
Theorem port_option_is_the_port_bound
    (w : world) (prog v : string) (rest : list string) (n : Z) :
  sys_argv w = prog :: "--port" :: v :: rest →
  builtin_int w v = inr n →
  is_Some (fs w !! "index.html") →
  sockets (run w).1 = [("localhost", n)]
  ∧ (bind_outcome w HOST n = None →
     Print ("📍 Server running at: http://localhost:" +:+ pretty n) ∈ (run w).1
     ∧ WebbrowserOpen ("http://localhost:" +:+ pretty n +:+ "/quick-order-test.html")
         ∈ (run w).1).
Proof.
  intros Hargv Hint Hindex.
  assert (parse_command_line w (State PORT_default []) = (State n [], Ret tt))
    as Hparse by (by rewrite (parse_port w _ _ _ _ Hargv), Hint).
  rewrite (run_trace w _ Hparse Hindex). cbn [fst PORT]. split.
  - by rewrite sockets_app, sockets_optional_note, sockets_cons_TCPServer,
      sockets_server_trace.
  - intros Hbind. split.
    + apply elem_of_app. right. apply elem_of_cons. right.
      apply startup_in_server_trace; [done|]. apply banner_shows_address.
    + apply elem_of_app. right. apply elem_of_cons. right.
      apply startup_in_server_trace; [done|]. apply browser_in_startup.
Qed.

Lemma port_8001_with_more_arguments :
  sockets (run (dev_machine ["server.py"; "--port"; "8001"; "--help"] site)).1
  = [("localhost", 8001%Z)]
  ∧ (bind_outcome (dev_machine ["server.py"; "--port"; "8001"; "--help"] site) HOST 8001
     = None →
     Print ("📍 Server running at: http://localhost:" +:+ pretty 8001%Z)
       ∈ (run (dev_machine ["server.py"; "--port"; "8001"; "--help"] site)).1
     ∧ WebbrowserOpen ("http://localhost:" +:+ pretty 8001%Z +:+ "/quick-order-test.html")
         ∈ (run (dev_machine ["server.py"; "--port"; "8001"; "--help"] site)).1).
Proof.
  apply (port_option_is_the_port_bound
           (dev_machine ["server.py"; "--port"; "8001"; "--help"] site)
           "server.py" "8001" ["--help"] 8001).
  - reflexivity.
  - reflexivity.
  - by eexists.
Defined.

(** X3.  A run asks for at most one socket, and only on [localhost]: a
    failed bind is not tried again and no second listener is opened. *)
Theorem at_most_one_socket (w : world) :
  sockets (run w).1 = [] ∨ ∃ port, sockets (run w).1 = [("localhost", port)].
Proof.
  destruct (run_cases w) as [->|[->|[->|(s1 & _ & _ & ->)]]];
    [left; reflexivity..|].
  right. exists (PORT s1). cbn [fst].
  by rewrite sockets_app, sockets_optional_note, sockets_cons_TCPServer,
    sockets_server_trace.
Qed.

(** X4.  When the bind fails with an [OSError] or any other [Exception],
    the run ends there: after the socket is asked for, only the error
    lines are printed, the browser is not opened, the accept loop is not
    entered, and the exit status is 1. *)
Theorem bind_failure_is_terminal (w : world) (s1 : state) (e : Py.exn) :
  parse_command_line w (State PORT_default []) = (s1, Ret tt) →
  is_Some (fs w !! "index.html") →
  bind_outcome w HOST (PORT s1) = Some e →
  Py.isinstance_Exception e = true →
  run w = (optional_note w optional_files
           ++ TCPServer HOST (PORT s1) :: error_lines (PORT s1) e,
           Exit 1)
  ∧ (ServeForever ∉ (run w).1)
  ∧ ∀ url, WebbrowserOpen url ∉ (run w).1.
Proof.
  intros Hparse Hindex Hbind He.
  rewrite (run_trace w _ Hparse Hindex).
  unfold server_trace. rewrite Hbind. cbn [fst snd].
  assert (outcome_of (ending e) = Exit 1) as ->.
  { by destruct e. }
  split; [done|].
  assert (∀ ev, ev ∈ optional_note w optional_files
                       ++ TCPServer HOST (PORT s1) :: error_lines (PORT s1) e →
                (∃ line, ev = Print line) ∨ ev = TCPServer HOST (PORT s1)) as Hevs.
  { intros ev. rewrite elem_of_app, elem_of_cons.
    intros [Hin|[->|Hin]]; [left|by right|left].
    - by apply optional_note_prints in Hin.
    - by apply error_lines_prints in Hin. }
  split.
  - intros Hin. by destruct (Hevs _ Hin) as [[line ?]|?].
  - intros url Hin. by destruct (Hevs _ Hin) as [[line ?]|?].
Qed.

Lemma bind_failure_on_linux :
  run (port_taken linux ["server.py"]) =
    (optional_note (port_taken linux ["server.py"]) optional_files
     ++ TCPServer HOST 8000
        :: error_lines 8000 (Py.OSError (Some 98%Z) "[Errno 98] Address already in use"),
     Exit 1)
  ∧ (ServeForever ∉ (run (port_taken linux ["server.py"])).1)
  ∧ ∀ url, WebbrowserOpen url ∉ (run (port_taken linux ["server.py"])).1.
Proof.
  apply (bind_failure_is_terminal (port_taken linux ["server.py"]) (State 8000 [])
           (Py.OSError (Some 98%Z) "[Errno 98] Address already in use")).
  - reflexivity.
  - by eexists.
  - reflexivity.
  - reflexivity.
Defined.

Lemma optional_note_names (w : world) (optional : list string) (file : string) :
  file ∈ optional → fs w !! file = None →
  Print ("   • " +:+ file) ∈ optional_note w optional.
Proof.
  intros Hin Hnone.
  assert (file ∈ absent w optional) as Hm by (by apply elem_of_absent).
  unfold optional_note. destruct (absent w optional) as [|m ms].
  { by apply not_elem_of_nil in Hm. }
  apply elem_of_cons. right. apply elem_of_app. left.
  by apply (list_elem_of_fmap_2 (λ f, Print ("   • " +:+ f))).
Qed.

(** X5.  Whatever [webbrowser.open] raises is caught, [KeyboardInterrupt]
    and [SystemExit] included: the warning is printed in the place of the
    success line, start-up goes on into the accept loop, and the run ends
    as the loop ends. *)
Theorem browser_failure_is_swallowed (w : world) (s1 : state) (e : Py.exn) :
  parse_command_line w (State PORT_default []) = (s1, Ret tt) →
  is_Some (fs w !! "index.html") →
  bind_outcome w HOST (PORT s1) = None →
  browser_outcome w (browser_url (PORT s1)) = Some e →
  (∃ before after,
     (run w).1 =
       before
       ++ [WebbrowserOpen (browser_url (PORT s1));
           Print "⚠️  Could not open browser automatically";
           Print (nl +:+ "🔄 Server started successfully!");
           Print "📝 Check the console for any errors or requests";
           ServeForever]
       ++ after)
  ∧ (run w).2 = outcome_of (match serve_outcome w with
                            | Some e' => ending e'
                            | None => Blocked
                            end).
Proof.
  intros Hparse Hindex Hbind Hbrowser.
  rewrite (run_trace w _ Hparse Hindex).
  unfold server_trace. rewrite Hbind.
  unfold startup_events, browser_events, started. rewrite Hbrowser.
  destruct (serve_outcome w) as [e'|]; cbn [fst snd]; (split; [|done]).
  - exists (optional_note w optional_files ++ TCPServer HOST (PORT s1) :: banner w (PORT s1)),
      (ServerClose :: error_lines (PORT s1) e').
    rewrite <- !app_assoc. reflexivity.
  - exists (optional_note w optional_files ++ TCPServer HOST (PORT s1) :: banner w (PORT s1)),
      [].
    rewrite <- !app_assoc. reflexivity.
Qed.

Lemma interrupt_while_the_browser_opens :
  (∃ before after,
     (run (interrupted_browser ["server.py"] site)).1 =
       before
       ++ [WebbrowserOpen (browser_url 8000);
           Print "⚠️  Could not open browser automatically";
           Print (nl +:+ "🔄 Server started successfully!");
           Print "📝 Check the console for any errors or requests";
           ServeForever]
       ++ after)
  ∧ (run (interrupted_browser ["server.py"] site)).2 = outcome_of Blocked.
Proof.
  apply (browser_failure_is_swallowed (interrupted_browser ["server.py"] site)
           (State 8000 []) Py.KeyboardInterrupt).
  - reflexivity.
  - by eexists.
  - reflexivity.
  - reflexivity.
Defined.

(** X6.  The browser is sent to [quick-order-test.html] even when
    [check_files] has just reported that file as missing. *)
Theorem browser_is_sent_to_a_page_reported_missing (w : world) (s1 : state) :
  parse_command_line w (State PORT_default []) = (s1, Ret tt) →
  is_Some (fs w !! "index.html") →
  fs w !! "quick-order-test.html" = None →
  bind_outcome w HOST (PORT s1) = None →
  Print "   • quick-order-test.html" ∈ (run w).1
  ∧ WebbrowserOpen ("http://localhost:" +:+ pretty (PORT s1) +:+ "/quick-order-test.html")
      ∈ (run w).1.
Proof.
  intros Hparse Hindex Hnone Hbind.
  rewrite (run_trace w _ Hparse Hindex). cbn [fst]. split.
  - apply elem_of_app. left.
    apply (optional_note_names w optional_files "quick-order-test.html"); [|done].
    unfold optional_files. apply (list_elem_of_lookup_2 _ 1). reflexivity.
  - apply elem_of_app. right. apply elem_of_cons. right.
    apply startup_in_server_trace; [done|]. apply browser_in_startup.
Qed.

Lemma browser_with_only_index_html :
  Print "   • quick-order-test.html"
    ∈ (run (dev_machine ["server.py"] {[ "index.html" := File ]})).1
  ∧ WebbrowserOpen ("http://localhost:" +:+ pretty 8000%Z +:+ "/quick-order-test.html")
      ∈ (run (dev_machine ["server.py"] {[ "index.html" := File ]})).1.
Proof.
  apply (browser_is_sent_to_a_page_reported_missing
           (dev_machine ["server.py"] {[ "index.html" := File ]}) (State 8000 [])).
  - reflexivity.
  - by eexists.
  - reflexivity.
  - reflexivity.
Defined.

(** X7.  Once the socket is bound and as long as nothing ends the accept
    loop, the process does not exit: the last thing it has done is enter
    the loop, and the server is not closed. *)
Theorem serves_until_the_loop_ends (w : world) (s1 : state) :
  parse_command_line w (State PORT_default []) = (s1, Ret tt) →
  is_Some (fs w !! "index.html") →
  bind_outcome w HOST (PORT s1) = None →
  serve_outcome w = None →
  (run w).2 = RunsForever
  ∧ last (run w).1 = Some ServeForever
  ∧ ServerClose ∉ (run w).1.
Proof.
  intros Hparse Hindex Hbind Hserve.
  rewrite (run_trace w _ Hparse Hindex).
  unfold server_trace. rewrite Hbind, Hserve. cbn [fst snd].
  split; [done|]. split.
  - rewrite cons_middle, app_assoc. apply last_startup_events.
  - rewrite elem_of_app, elem_of_cons. intros [Hin|[?|Hin]]; [|done|].
    + by destruct (optional_note_prints _ _ _ Hin) as [line ?].
    + by destruct (startup_events_hold _ _ _ Hin) as [[line ?]|[?|?]].
Qed.

Lemma serves_after_an_interrupted_browser :
  (run (interrupted_browser ["server.py"] site)).2 = RunsForever
  ∧ last (run (interrupted_browser ["server.py"] site)).1 = Some ServeForever
  ∧ ServerClose ∉ (run (interrupted_browser ["server.py"] site)).1.
Proof.
  apply (serves_until_the_loop_ends (interrupted_browser ["server.py"] site)
           (State 8000 [])).
  - reflexivity.
  - by eexists.
  - reflexivity.
  - reflexivity.
Defined.

(** X8.  Whatever exception ends the accept loop, the server is closed
    before anything is printed about it; an [OSError] or other [Exception]
    then gives exit status 1, and an [OSError] numbered 48 is reported as a
    port in use although the port was bound. *)
Theorem leaving_the_loop_closes_the_server (w : world) (s1 : state) (e : Py.exn) :
  parse_command_line w (State PORT_default []) = (s1, Ret tt) →
  is_Some (fs w !! "index.html") →
  bind_outcome w HOST (PORT s1) = None →
  serve_outcome w = Some e →
  (∃ before,
     (run w).1 = before ++ ServeForever :: ServerClose :: error_lines (PORT s1) e)
  ∧ (Py.isinstance_Exception e = true → (run w).2 = Exit 1)
  ∧ (∀ msg, e = Py.OSError (Some 48%Z) msg →
            Print ("❌ Error: Port " +:+ pretty (PORT s1) +:+ " is already in use")
              ∈ (run w).1).
Proof.
  intros Hparse Hindex Hbind Hserve.
  rewrite (run_trace w _ Hparse Hindex).
  unfold server_trace. rewrite Hbind, Hserve. cbn [fst snd].
  split; [|split].
  - exists (optional_note w optional_files
            ++ TCPServer HOST (PORT s1)
               :: banner w (PORT s1) ++ browser_events w (PORT s1) ++ started).
    unfold startup_events. rewrite <- !app_assoc. reflexivity.
  - intros He. by destruct e.
  - intros msg ->.
    apply elem_of_app. right. apply elem_of_cons. right.
    apply elem_of_app. right. apply elem_of_cons. right.
    apply (list_elem_of_lookup_2 _ 0). reflexivity.
Qed.

Lemma loop_ends_with_error_48 :
  (∃ before,
     (run (failing_loop (Py.OSError (Some 48%Z) "[Errno 48] Address already in use"))).1
     = before ++ ServeForever :: ServerClose
                 :: error_lines 8000
                      (Py.OSError (Some 48%Z) "[Errno 48] Address already in use"))
  ∧ (Py.isinstance_Exception (Py.OSError (Some 48%Z) "[Errno 48] Address already in use")
     = true →
     (run (failing_loop (Py.OSError (Some 48%Z) "[Errno 48] Address already in use"))).2
     = Exit 1)
  ∧ (∀ msg, Py.OSError (Some 48%Z) "[Errno 48] Address already in use"
            = Py.OSError (Some 48%Z) msg →
            Print ("❌ Error: Port " +:+ pretty 8000%Z +:+ " is already in use")
              ∈ (run (failing_loop
                        (Py.OSError (Some 48%Z) "[Errno 48] Address already in use"))).1).
Proof.
  apply (leaving_the_loop_closes_the_server
           (failing_loop (Py.OSError (Some 48%Z) "[Errno 48] Address already in use"))
           (State 8000 [])
           (Py.OSError (Some 48%Z) "[Errno 48] Address already in use")).
  - reflexivity.
  - by eexists.
  - reflexivity.
  - reflexivity.
Defined.

(** X9.  How a run can end.  The exit status is 0 or 1 (or the one of a
    [SystemExit] raised from outside the script); no [Exception] and no
    [KeyboardInterrupt] raised by the bind or the accept loop leaves the
    process as a traceback; and the process stays alive only inside the
    accept loop. *)
Theorem how_a_run_ends (w : world) :
  match (run w).2 with
  | Exit code => code = 0%Z ∨ code = 1%Z ∨ raised w (Py.SystemExit code)
  | Traceback e =>
      Py.isinstance_Exception e = false ∧ e ≠ Py.KeyboardInterrupt ∧ raised w e
  | RunsForever => serve_outcome w = None ∧ last (run w).1 = Some ServeForever
  end.
Proof.
  destruct (run_cases w) as [->|[->|[->|(s1 & _ & _ & ->)]]];
    cbn [fst snd]; [auto..|].
  unfold server_trace, raised.
  destruct (bind_outcome w HOST (PORT s1)) as [e|] eqn:Hbind; cbn [fst snd].
  { destruct e as [|code|msg|errno msg|msg|msg]; cbn; eauto 6. }
  destruct (serve_outcome w) as [e|] eqn:Hserve; cbn [fst snd].
  { destruct e as [|code|msg|errno msg|msg|msg]; cbn; eauto 6. }
  split; [done|].
  rewrite cons_middle, app_assoc. apply last_startup_events.
Qed.

(** X10.  When required files are missing, [check_files] returns [False]
    after printing exactly the heading, one line per missing required file
    (in the order of the list, a name listed twice being printed twice) and
    the hint; missing optional files are not mentioned. *)
Theorem required_files_are_reported_alone
    (w : world) (required optional : list string) (s : state) :
  absent w required ≠ [] →
  check_files_of w required optional s
  = (State (PORT s)
       (events s
        ++ Print "❌ Error: Required files are missing:"
           :: map (λ file, Print ("   • " +:+ file)) (absent w required)
           ++ [Print (nl +:+ "💡 Make sure you're running this from the project root directory")]),
     Ret false).
Proof.
  intros Hmissing. rewrite check_files_of_run.
  by destruct (absent w required).
Qed.

Lemma two_required_files_missing :
  check_files_of (dev_machine ["server.py"] {[ "b.html" := File ]})
                 ["a.html"; "b.html"; "c.html"; "a.html"] ["d.js"] (State 8000 [])
  = (State 8000
       ([] ++ Print "❌ Error: Required files are missing:"
           :: map (λ file, Print ("   • " +:+ file)) ["a.html"; "c.html"; "a.html"]
           ++ [Print (nl +:+ "💡 Make sure you're running this from the project root directory")]),
     Ret false).
Proof.
  refine (eq_trans
            (required_files_are_reported_alone
               (dev_machine ["server.py"] {[ "b.html" := File ]})
               ["a.html"; "b.html"; "c.html"; "a.html"] ["d.js"] (State 8000 []) _) _).
  - vm_compute. discriminate.
  - vm_compute. reflexivity.
Defined.

(** *** The request handler: further properties *)

Section handling.
Context (lib : library).

Lemma grows_refl {X} (field : handler → list X) (P : X → Prop) (h : handler) :
  grows field P h h.
Proof. exists []. by rewrite app_nil_r. Qed.

Lemma grows_trans {X} (field : handler → list X) (P : X → Prop) (h1 h2 h3 : handler) :
  grows field P h1 h2 → grows field P h2 h3 → grows field P h1 h3.
Proof.
  intros (new1 & E1 & F1) (new2 & E2 & F2).
  exists (new1 ++ new2). rewrite E2, E1, <- app_assoc.
  split; [done|]. by apply Forall_app.
Qed.

Lemma grows_same {X} (field : handler → list X) (P : X → Prop) (h h' : handler) :
  field h' = field h → grows field P h h'.
Proof. intros E. exists []. by rewrite app_nil_r. Qed.

Lemma grows_one {X} (field : handler → list X) (P : X → Prop) (h h' : handler) (x : X) :
  field h' = field h ++ [x] → P x → grows field P h h'.
Proof. intros E Hx. exists [x]. split; [done|]. by repeat constructor. Qed.

Lemma run_calls_grows {X} (field : handler → list X) (P : X → Prop) :
  (∀ h c, grows field P h (run_call lib h c)) →
  ∀ calls h, grows field P h (run_calls lib calls h).
Proof.
  intros Hcall calls. unfold run_calls.
  induction calls as [|c calls IH]; intros h; cbn [foldl].
  - apply grows_refl.
  - eapply grows_trans; [apply Hcall | apply IH].
Qed.

(** What holds of every call and of [do_OPTIONS] holds of the handling of
    a request, whatever the library does. *)
Lemma handle_one_request_grows {X} (field : handler → list X) (P : X → Prop) :
  (∀ h c, grows field P h (run_call lib h c)) →
  (∀ h, grows field P h (do_OPTIONS lib h)) →
  ∀ files h, grows field P h (handle_one_request lib files h).
Proof.
  intros Hcall Hoptions files h. unfold handle_one_request.
  destruct (parse_request lib h) as [calls parsed].
  eapply grows_trans; [by apply run_calls_grows|].
  destruct parsed; [|apply grows_refl].
  unfold method. case_bool_decide; [apply Hoptions | by apply run_calls_grows].
Qed.

(** The log is touched by [log_message] alone. *)
Lemma send_header_stdout (keyword value : string) (h : handler) :
  stdout (send_header keyword value h) = stdout h.
Proof. unfold send_header. by case_bool_decide. Qed.

Lemma send_response_only_stdout (code : Z) (h : handler) :
  stdout (send_response_only lib code h) = stdout h.
Proof. unfold send_response_only. by case_bool_decide. Qed.

Lemma end_headers_stdout (h : handler) : stdout (end_headers h) = stdout h.
Proof.
  unfold end_headers, BaseHTTPRequestHandler_end_headers.
  case_bool_decide; [unfold flush_headers; cbn [stdout with_headers_buffer with_wfile]|];
    by rewrite !send_header_stdout.
Qed.

Lemma log_message_stamped (format : string) (args : list string) (h : handler) :
  grows stdout (stamped lib) h (log_message lib format args h).
Proof. eapply grows_one; [reflexivity|]. by eexists. Qed.

Lemma send_response_stamped (code : Z) (h : handler) :
  grows stdout (stamped lib) h (send_response lib code h).
Proof.
  unfold send_response, log_request.
  eapply grows_trans; [apply log_message_stamped|].
  apply grows_same.
  by rewrite !send_header_stdout, send_response_only_stdout.
Qed.

End handling.

(** X11.  Every line that the handling of a request adds to standard
    output, whatever the library logs and for any method and path, starts
    with the time stamp in square brackets. *)
Theorem every_log_line_is_stamped
    (lib : library) (files : gmap string node) (h : handler) :
  grows stdout (stamped lib) h (handle_one_request lib files h).
Proof.
  apply handle_one_request_grows.
  - intros h' c. destruct c; cbn [run_call].
    + apply send_response_stamped.
    + apply grows_same, send_response_only_stdout.
    + apply grows_same, send_header_stdout.
    + apply grows_same, end_headers_stdout.
    + by apply grows_same.
    + apply log_message_stamped.
  - intros h'. unfold do_OPTIONS.
    eapply grows_trans; [apply send_response_stamped|].
    apply grows_same, end_headers_stdout.
Qed.

(** X12.  In every header block written while a request is handled the
    three CORS headers are the last three lines, in the order
    Allow-Origin, Allow-Methods, Allow-Headers: nothing the library queues
    can come after them. *)
Theorem cors_headers_close_every_block
    (lib : library) (files : gmap string node) (h : handler) :
  grows wfile ends_with_cors h (handle_one_request lib files h).
Proof.
  assert (∀ h', grows wfile ends_with_cors h' (end_headers h')) as Hend.
  { intros h'. unfold grows. rewrite end_headers_wfile.
    case_bool_decide; [|apply grows_refl].
    eexists. split; [done|]. repeat constructor.
    cbn [ends_with_cors]. by apply suffix_app_r. }
  apply handle_one_request_grows.
  - intros h' c. destruct c; cbn [run_call].
    + apply grows_same, send_response_wfile.
    + apply grows_same, send_response_only_wfile.
    + apply grows_same, send_header_wfile.
    + apply Hend.
    + eapply grows_one; [reflexivity|exact I].
    + by apply grows_same.
  - intros h'. unfold do_OPTIONS.
    eapply grows_trans; [|apply Hend].
    apply grows_same, send_response_wfile.
Qed.

Section preflights.
Context (lib : library).



(** Under HTTP/0.9 the library's header methods do nothing. *)
Lemma send_header_0_9 (keyword value : string) (h : handler) :
  request_version h = "HTTP/0.9" → send_header keyword value h = h.
Proof. intros Hv. unfold send_header. by rewrite bool_decide_eq_false_2 by auto. Qed.

Lemma send_response_only_0_9 (code : Z) (h : handler) :
  request_version h = "HTTP/0.9" → send_response_only lib code h = h.
Proof.
  intros Hv. unfold send_response_only. by rewrite bool_decide_eq_false_2 by auto.
Qed.

Lemma end_headers_0_9 (h : handler) :
  request_version h = "HTTP/0.9" → end_headers h = h.
Proof.
  intros Hv. unfold end_headers, BaseHTTPRequestHandler_end_headers.
  do 3 rewrite (send_header_0_9 _ _ h) by done.
  by rewrite bool_decide_eq_false_2 by auto.
Qed.

Lemma send_response_0_9 (code : Z) (h : handler) :
  request_version h = "HTTP/0.9" →
  request_version (send_response lib code h) = "HTTP/0.9"
  ∧ wfile (send_response lib code h) = wfile h.
Proof.
  intros Hv. unfold send_response, log_request.
  set (h' := log_message lib _ _ h).
  assert (request_version h' = "HTTP/0.9") as Hv' by done.
  rewrite (send_response_only_0_9 _ h') by done.
  by do 2 rewrite (send_header_0_9 _ _ h') by done.
Qed.

Lemma run_call_0_9 (h : handler) (c : call) :
  request_version h = "HTTP/0.9" →
  request_version (run_call lib h c) = "HTTP/0.9"
  ∧ grows wfile is_body h (run_call lib h c).
Proof.
  intros Hv. destruct c; cbn [run_call].
  - destruct (send_response_0_9 code h Hv) as [Hv' Hw].
    split; [done|]. by apply grows_same.
  - rewrite send_response_only_0_9 by done. split; [done|apply grows_refl].
  - rewrite send_header_0_9 by done. split; [done|apply grows_refl].
  - rewrite end_headers_0_9 by done. split; [done|apply grows_refl].
  - split; [done|]. eapply grows_one; [reflexivity|]. by eexists.
  - split; [done|]. by apply grows_same.
Qed.

Lemma run_calls_0_9 (calls : list call) (h : handler) :
  request_version h = "HTTP/0.9" →
  request_version (run_calls lib calls h) = "HTTP/0.9"
  ∧ grows wfile is_body h (run_calls lib calls h).
Proof.
  unfold run_calls. revert h.
  induction calls as [|c calls IH]; intros h Hv; cbn [foldl].
  - split; [done|apply grows_refl].
  - destruct (run_call_0_9 h c Hv) as [Hv' Hg].
    destruct (IH _ Hv') as [Hv'' Hg'].
    split; [done|]. by eapply grows_trans.
Qed.

End preflights.



(** X14.  For a request without a version (HTTP/0.9) nothing but body is
    written, whatever the library calls: the status line and every header,
    the CORS headers included, are dropped. *)
Theorem http_0_9_gets_no_header
    (lib : library) (files : gmap string node) (h : handler) :
  request_version h = "HTTP/0.9" →
  grows wfile is_body h (handle_one_request lib files h).
Proof.
  intros Hv. unfold handle_one_request.
  destruct (parse_request lib h) as [calls parsed].
  destruct (run_calls_0_9 lib calls h Hv) as [Hv' Hg].
  eapply grows_trans; [exact Hg|].
  destruct parsed; [|apply grows_refl].
  unfold method. case_bool_decide.
  - unfold do_OPTIONS. rewrite end_headers_0_9 by (by apply send_response_0_9).
    apply grows_same. by apply send_response_0_9.
  - by apply run_calls_0_9.
Qed.

Lemma simple_request_on_sample_library :
  grows wfile is_body
    (request "GET /index.html" "GET" "/index.html" "HTTP/0.9")
    (handle_one_request sample_library site
       (request "GET /index.html" "GET" "/index.html" "HTTP/0.9")).
Proof.
  apply (http_0_9_gets_no_header sample_library site
           (request "GET /index.html" "GET" "/index.html" "HTTP/0.9")).
  reflexivity.
Defined.

(** The same request on the sample library, written out: the page, and
    nothing before it. *)
Example simple_request_is_body_only :
  wfile (handle_one_request sample_library site
           (request "GET /index.html" "GET" "/index.html" "HTTP/0.9"))
  = [Body "<!DOCTYPE html>"].
Proof. vm_compute. reflexivity. Qed.

(** *** Header sections, one by one *)

Section sections.
Context (lib : library).

Lemma ended_app (calls1 calls2 : list call) :
  ended (calls1 ++ calls2) = ended calls1 + ended calls2.
Proof.
  induction calls1 as [|c calls1 IH]; [done|].
  destruct c; cbn [app ended]; by rewrite IH.
Qed.

Lemma header_sections_app (items1 items2 : list sent) :
  header_sections (items1 ++ items2) = header_sections items1 ++ header_sections items2.
Proof. apply omap_app. Qed.

(** [handle_one_request] makes the calls of [calls_made], in order. *)
Lemma handle_one_request_calls (files : gmap string node) (h : handler) :
  handle_one_request lib files h = run_calls lib (calls_made lib files h) h.
Proof.
  unfold handle_one_request, calls_made.
  destruct (parse_request lib h) as [calls parsed].
  destruct parsed; [|done].
  unfold method, run_calls. rewrite foldl_app.
  case_bool_decide; [|reflexivity].
  unfold do_OPTIONS. cbn [foldl run_call]. reflexivity.
Qed.

(** One call on a request with a version: the version stays, and a header
    section is written exactly when the call is [end_headers], with the
    three CORS headers in it. *)
Lemma run_call_sections (h : handler) (c : call) :
  request_version h ≠ "HTTP/0.9" →
  request_version (run_call lib h c) = request_version h
  ∧ ∃ new, wfile (run_call lib h c) = wfile h ++ new
           ∧ length (header_sections new) = ended [c]
           ∧ Forall (λ lines, cors_headers ⊆ lines) (header_sections new).
Proof.
  destruct h as [rl cmd p v buf wf out]. cbn [request_version wfile]. intros Hv.
  destruct c; cbn [run_call ended].
  - unfold send_response, log_request. cbn [requestline].
    rewrite log_message_mk, send_response_only_mk by done.
    rewrite !send_header_mk by done.
    split; [done|]. exists []. cbn [wfile]. by rewrite app_nil_r.
  - rewrite send_response_only_mk by done.
    split; [done|]. exists []. cbn [wfile]. by rewrite app_nil_r.
  - rewrite send_header_mk by done.
    split; [done|]. exists []. cbn [wfile]. by rewrite app_nil_r.
  - unfold end_headers.
    rewrite !send_header_mk by done. rewrite base_end_headers_mk by done.
    split; [done|]. eexists [_]. cbn [wfile]. split; [reflexivity|].
    split; [reflexivity|].
    repeat constructor. rewrite <- !app_assoc.
    intros x Hx. apply elem_of_app. by right.
  - split; [reflexivity|]. exists [Body data].
    split; [reflexivity|]. split; [reflexivity|]. constructor.
  - rewrite log_message_mk.
    split; [done|]. exists []. cbn [wfile]. by rewrite app_nil_r.
Qed.

Lemma run_calls_sections (calls : list call) (h : handler) :
  request_version h ≠ "HTTP/0.9" →
  ∃ new, wfile (run_calls lib calls h) = wfile h ++ new
         ∧ length (header_sections new) = ended calls
         ∧ Forall (λ lines, cors_headers ⊆ lines) (header_sections new).
Proof.
  unfold run_calls. revert h.
  induction calls as [|c calls IH]; intros h Hv; cbn [foldl].
  { exists []. by rewrite app_nil_r. }
  destruct (run_call_sections h c Hv) as (Hv' & new1 & E1 & L1 & F1).
  destruct (IH (run_call lib h c)) as (new2 & E2 & L2 & F2);
    [by rewrite Hv'|].
  exists (new1 ++ new2).
  rewrite E2, E1, <- app_assoc, header_sections_app, length_app, L1, L2.
  split; [done|]. split.
  - exact (eq_sym (ended_app [c] calls)).
  - by apply Forall_app.
Qed.

End sections.

(** C1, as the code has it.  For a request whose version is not HTTP/0.9,
    of any method and for any path and whatever the library does with it,
    a header section is written each time the headers of a response are
    ended, and every header section written includes the three CORS
    headers. *)
Theorem cors_on_every_header_section
    (lib : library) (files : gmap string node) (h : handler) :
  request_version h ≠ "HTTP/0.9" →
  ∃ new,
    wfile (handle_one_request lib files h) = wfile h ++ new
    ∧ length (header_sections new) = ended (calls_made lib files h)
    ∧ Forall (λ lines, cors_headers ⊆ lines) (header_sections new).
Proof.
  intros Hv. rewrite handle_one_request_calls.
  by apply run_calls_sections.
Qed.

Lemma cors_on_a_missing_page :
  ∃ new,
    wfile (handle_one_request sample_library site
             (request "POST /orders HTTP/1.1" "POST" "/orders" "HTTP/1.1"))
    = wfile (request "POST /orders HTTP/1.1" "POST" "/orders" "HTTP/1.1") ++ new
    ∧ length (header_sections new)
      = ended (calls_made sample_library site
                 (request "POST /orders HTTP/1.1" "POST" "/orders" "HTTP/1.1"))
    ∧ Forall (λ lines, cors_headers ⊆ lines) (header_sections new).
Proof.
  apply (cors_on_every_header_section sample_library site
           (request "POST /orders HTTP/1.1" "POST" "/orders" "HTTP/1.1")).
  discriminate.
Defined.

(** The same request written out: one header section is ended, and the one
    written holds the three headers. *)
Example missing_page_on_sample_library :
  ended (calls_made sample_library site
           (request "POST /orders HTTP/1.1" "POST" "/orders" "HTTP/1.1")) = 1
  ∧ wfile (handle_one_request sample_library site
             (request "POST /orders HTTP/1.1" "POST" "/orders" "HTTP/1.1"))
    = [HeaderBlock
         [StatusLine "HTTP/1.0" 404 "File not found";
          Header "Server" "SimpleHTTP/0.6 Python/3.11.2";
          Header "Date" "Tue, 03 Nov 2026 12:00:00 GMT";
          Header "Connection" "close";
          Header "Access-Control-Allow-Origin" "*";
          Header "Access-Control-Allow-Methods" "GET, POST, OPTIONS";
          Header "Access-Control-Allow-Headers" "Content-Type"];
       Body "File not found"].
Proof. split; vm_compute; reflexivity. Qed.

(** C1, as stated, fails: a request without a version (HTTP/0.9) is
    answered by the page alone; the response has no header section, so no
    CORS header, although [end_headers] was called once. *)
Lemma simple_request_gets_no_cors_header :
  wfile (handle_one_request sample_library site
           (request "GET /index.html" "GET" "/index.html" "HTTP/0.9"))
  = [Body "<!DOCTYPE html>"]
  ∧ header_sections
      (wfile (handle_one_request sample_library site
                (request "GET /index.html" "GET" "/index.html" "HTTP/0.9")))
    = []
  ∧ ended (calls_made sample_library site
             (request "GET /index.html" "GET" "/index.html" "HTTP/0.9")) = 1.
Proof. repeat split; vm_compute; reflexivity. Qed.

(** C2, as stated, fails: the request line [OPTIONS /cart HTTP/0.9] is
    handed to [do_OPTIONS] like any other, and nothing is written for it,
    neither the status line 200 nor a header; the request is only
    logged. *)
Lemma options_with_version_0_9_gets_nothing :
  method sample_library site
    (request "OPTIONS /cart HTTP/0.9" "OPTIONS" "/cart" "HTTP/0.9")
  = MkHandler "OPTIONS /cart HTTP/0.9" "OPTIONS" "/cart" "HTTP/0.9" [] []
      ["[03/Nov/2026 12:00:00] " +:+ quote +:+ "OPTIONS /cart HTTP/0.9" +:+ quote +:+ " 200 -"]
  ∧ wfile (handle_one_request sample_library site
             (request "OPTIONS /cart HTTP/0.9" "OPTIONS" "/cart" "HTTP/0.9"))
    = [].
Proof. split; vm_compute; reflexivity. Qed.
